(** * HardHat main view: tab lifecycle, command history and update broadcast

    A shallow embedding of [src/views/main_view.py] (class [MainView]) and of
    [src/widgets/Output.py].  Python attributes of the view become the fields
    of a record, the Textual widgets the view queries become part of that
    record too, and every handler is a function from views to results in an
    exception monad. *)

From Stdlib Require Import Ascii.
From stdpp Require Import gmap strings list pretty sorting.

Set Warnings "-register-all,-clear-no-such-hyp".

Local Open Scope Z_scope.

(** ** Python strings *)

(** A Python [str] is modelled as a Rocq [string]; its characters are the
    code points 0..255. *)
Module PyStr.

(** [s.startswith(p)] *)
Fixpoint startswith (s p : string) {struct p} : bool :=
  match p with
  | EmptyString => true
  | String b p' =>
      match s with
      | EmptyString => false
      | String a s' => bool_decide (a = b) && startswith s' p'
      end
  end.

(** [len(s)] as a machine-independent natural number. *)
Fixpoint len (s : string) : nat :=
  match s with
  | EmptyString => O
  | String _ s' => S (len s')
  end.

(** The slice [s[n:]]. *)
Fixpoint drop (n : nat) (s : string) : string :=
  match n with
  | O => s
  | S n' =>
      match s with
      | EmptyString => EmptyString
      | String _ s' => drop n' s'
      end
  end.

(** [s.removeprefix(p)] *)
Definition removeprefix (s p : string) : string :=
  if startswith s p then drop (len p) s else s.

(** [sub in s] *)
Fixpoint contains (s sub : string) : bool :=
  startswith s sub ||
  match s with
  | EmptyString => false
  | String _ s' => contains s' sub
  end.

(** [c.isspace()] on the code points below 256. *)
Definition isspace (c : ascii) : bool :=
  let n := nat_of_ascii c in
  ((9 <=? n) && (n <=? 13))%nat || ((28 <=? n) && (n <=? 32))%nat
  || (n =? 133)%nat || (n =? 160)%nat.

(** [s.lstrip()] *)
Fixpoint lstrip (s : string) : string :=
  match s with
  | EmptyString => EmptyString
  | String c s' => if isspace c then lstrip s' else s
  end.

(** [s.rstrip()] *)
Fixpoint rstrip (s : string) : string :=
  match s with
  | EmptyString => EmptyString
  | String c s' =>
      match rstrip s' with
      | EmptyString => if isspace c then EmptyString else String c EmptyString
      | r => String c r
      end
  end.

(** [s.strip()] *)
Definition strip (s : string) : string := rstrip (lstrip s).

(** Truth value of a string: the empty string is falsy. *)
Definition truthy (s : string) : bool :=
  match s with EmptyString => false | _ => true end.

(** [str(n)] for an integer. *)
Definition str (n : Z) : string := pretty n.

End PyStr.

(** ** Exceptions *)

Inductive exn : Type :=
  | KeyError (key : string)
  | IndexError
  | AttributeError (attr : string)
  | NoMatches (selector : string)
  | DuplicateIds (ident : string).

Inductive result (A : Type) : Type :=
  | Ok (a : A)
  | Raise (e : exn).
Arguments Ok {A} a.
Arguments Raise {A} e.

Definition bind {A B : Type} (m : result A) (k : A -> result B) : result B :=
  match m with
  | Ok a => k a
  | Raise e => Raise e
  end.

Notation "'do' x <- m ;; k" := (bind m (fun x => k))
  (at level 10, x name, m at level 99, k at level 200).

(** ** Python containers *)

(** An insertion-ordered [dict] whose iteration order matters is kept as the
    list of its items. *)
Fixpoint dict_get {V : Type} (d : list (string * V)) (k : string) : option V :=
  match d with
  | [] => None
  | (k', v) :: d' => if bool_decide (k' = k) then Some v else dict_get d' k
  end.

(** [k in d] *)
Definition dict_mem {V : Type} (d : list (string * V)) (k : string) : bool :=
  match dict_get d k with Some _ => true | None => false end.

(** [l[i]] with Python's negative indices and [IndexError]. *)
Definition getitem {A : Type} (l : list A) (i : Z) : result A :=
  let n := Z.of_nat (length l) in
  let j := if i <? 0 then i + n else i in
  if (0 <=? j) && (j <? n)
  then match l !! Z.to_nat j with
       | Some x => Ok x
       | None => Raise IndexError
       end
  else Raise IndexError.

(** ** Widgets *)

(** The single process-wide data store; widgets hold a reference to it. *)
Inductive DataStore : Type := DataStoreRef (addr : N).

(** The DOM below a tab pane.  The first six constructors are the custom
    widgets of [widgets/], each bound to a data store; the others are the
    Textual widgets the view builds. *)
Inductive Widget : Type :=
  | RawResponses (ds : DataStore)
  | Registers (ds : DataStore)
  | Stack (ds : DataStore)
  | Output (ds : DataStore)
  | Disassembly (ds : DataStore)
  | Backtrace (ds : DataStore)
  | Static (content : string)
  | Button (label : string) (ident : string)
  | VerticalScroll (children : list Widget)
  | ScrollableContainer (children : list Widget).

Record TabPane : Type := mkTabPane {
  pane_title : string;
  pane_children : list Widget;
  pane_id : string
}.

Record TabbedContent : Type := mkTabbedContent {
  panes : list TabPane;
  active : string
}.

Record Input : Type := mkInput {
  value : string;
  has_focus : bool
}.

(** What is visible of the debugger process: the commands it was handed, in
    order. *)
Record CoreMinerProcess : Type := mkProcess {
  store : DataStore;
  parsed_commands : list string
}.

(** ** The view *)

(** The attributes [MainView.__init__] sets, the process handle [on_mount]
    adds, the widgets [compose] yields and the view later queries by id, and
    the lines written by [print]. *)
Record MainView : Type := mkMainView {
  tab_counters : gmap string Z;
  add_tab_map : list (string * string);
  command_history : list string;
  history_index : Z;
  data_store : DataStore;
  process : option CoreMinerProcess;
  tabbed_contents : gmap string TabbedContent;
  command_input : Input;
  stdout : list string
}.

Definition set_tab_counters (c : gmap string Z) (self : MainView) : MainView :=
  mkMainView c (add_tab_map self) (command_history self) (history_index self)
    (data_store self) (process self) (tabbed_contents self)
    (command_input self) (stdout self).

Definition set_command_history (h : list string) (self : MainView) : MainView :=
  mkMainView (tab_counters self) (add_tab_map self) h (history_index self)
    (data_store self) (process self) (tabbed_contents self)
    (command_input self) (stdout self).

Definition set_history_index (i : Z) (self : MainView) : MainView :=
  mkMainView (tab_counters self) (add_tab_map self) (command_history self) i
    (data_store self) (process self) (tabbed_contents self)
    (command_input self) (stdout self).

Definition set_process (p : option CoreMinerProcess) (self : MainView) : MainView :=
  mkMainView (tab_counters self) (add_tab_map self) (command_history self)
    (history_index self) (data_store self) p (tabbed_contents self)
    (command_input self) (stdout self).

Definition set_tabbed_contents (t : gmap string TabbedContent) (self : MainView)
  : MainView :=
  mkMainView (tab_counters self) (add_tab_map self) (command_history self)
    (history_index self) (data_store self) (process self) t
    (command_input self) (stdout self).

Definition set_command_input (i : Input) (self : MainView) : MainView :=
  mkMainView (tab_counters self) (add_tab_map self) (command_history self)
    (history_index self) (data_store self) (process self)
    (tabbed_contents self) i (stdout self).

(** [print(line)] *)
Definition print (line : string) (self : MainView) : MainView :=
  mkMainView (tab_counters self) (add_tab_map self) (command_history self)
    (history_index self) (data_store self) (process self)
    (tabbed_contents self) (command_input self) (stdout self ++ [line]).

(** [command_input.value = v] *)
Definition set_value (v : string) (self : MainView) : MainView :=
  set_command_input (mkInput v (has_focus (command_input self))) self.

(** [len(self.command_history)] *)
Definition len_history (self : MainView) : Z :=
  Z.of_nat (length (command_history self)).

(** The sentinel pane [compose] puts in each region: title [\[+]], one
    "Add Tab" button. *)
Definition plus_pane (region plus_tab_id : string) : TabPane :=
  mkTabPane "\[+]" [Button "Add Tab" ("add_" +:+ region)] plus_tab_id.

Definition plus_region (region plus_tab_id : string) : TabbedContent :=
  mkTabbedContent [plus_pane region plus_tab_id] plus_tab_id.

(** The value [__init__] gives [add_tab_map]: the four regions with their
    sentinel panes, in insertion order. *)
Definition regions : list (string * string) :=
  [("main_tabs", "add_main"); ("small_tabs_1", "add_small_1");
   ("small_tabs_2", "add_small_2"); ("medium_tabs", "add_medium")].

(** [MainView()] followed by [compose]; [ds] is the store [DataStore()]
    returns. *)
Definition new_view (ds : DataStore) : MainView :=
  {| tab_counters :=
       <["main_tabs" := 0]> (<["small_tabs_1" := 0]>
         (<["small_tabs_2" := 0]> (<["medium_tabs" := 0]> ∅)));
     add_tab_map := regions;
     command_history := [];
     history_index := 0;
     data_store := ds;
     process := None;
     tabbed_contents :=
       <["main_tabs" := plus_region "main_tabs" "add_main"]>
         (<["small_tabs_1" := plus_region "small_tabs_1" "add_small_1"]>
           (<["small_tabs_2" := plus_region "small_tabs_2" "add_small_2"]>
             (<["medium_tabs" := plus_region "medium_tabs" "add_medium"]> ∅)));
     command_input := mkInput "" false;
     stdout := [] |}.

(** [self.query_one(f"#{tabbed_content_id}", TabbedContent)] *)
Definition query_one_tabbed (self : MainView) (tabbed_content_id : string)
  : result TabbedContent :=
  match tabbed_contents self !! tabbed_content_id with
  | Some tabbed_content => Ok tabbed_content
  | None => Raise (NoMatches ("#" +:+ tabbed_content_id))
  end.

(** ** Textual's [TabbedContent] *)

(** The ids of the panes of a region, in tab order. *)
Definition pane_ids (tc : TabbedContent) : list string :=
  pane_id <$> panes tc.

Fixpoint insert_before (pane : TabPane) (before : string) (l : list TabPane)
  : option (list TabPane) :=
  match l with
  | [] => None
  | p :: l' =>
      if bool_decide (pane_id p = before) then Some (pane :: p :: l')
      else cons p <$> insert_before pane before l'
  end.

(** [tabbed_content.add_pane(pane, before=before)]: Textual mounts the pane
    immediately before the pane whose id is [before]; it refuses an id that a
    sibling already has and an anchor that is not there. *)
Definition add_pane (pane : TabPane) (before : string) (tc : TabbedContent)
  : result TabbedContent :=
  if bool_decide (pane_id pane ∈ pane_ids tc) then
    Raise (DuplicateIds (pane_id pane))
  else
    match insert_before pane before (panes tc) with
    | Some l => Ok (mkTabbedContent l (active tc))
    | None => Raise (NoMatches ("#" +:+ before))
    end.

Fixpoint remove_first (tab_id : string) (l : list TabPane) : list TabPane :=
  match l with
  | [] => []
  | p :: l' =>
      if bool_decide (pane_id p = tab_id) then l' else p :: remove_first tab_id l'
  end.

(** ** Handlers of [MainView] *)

(** Custom widget classes whose modules are outside this slice. *)
Inductive UnseenWidget : Type :=
  | URawResponses | URegisters | UStack | UDisassembly | UBacktrace.

(** A key press; [stopped] records [event.stop()]. *)
Record Key : Type := mkKey {
  key : string;
  stopped : bool
}.

(** [Input.Submitted]: the id of the input that was submitted and its value
    at that moment. *)
Record Submitted : Type := mkSubmitted {
  input_id : string;
  submitted_value : string
}.

Section Handlers.

(** Whether a widget class outside this slice defines a callable
    [update_content]. *)
Variable exposes_update_content : UnseenWidget -> bool.

(** The tab Textual activates when the active pane of a region is removed:
    given the panes before the removal and the id of the removed pane. *)
Variable next_active : list TabPane -> string -> string.

(** [tabbed_content.remove_pane(tab_id)] for an id made of letters, digits
    and underscores, as every id the view builds is: the pane with that id
    goes, and an id that names no pane is ignored.  Textual looks the tab up
    through a selector built from the id; what it does with an id that
    holds other characters is outside this model. *)
Definition remove_pane (tab_id : string) (tc : TabbedContent) : TabbedContent :=
  if bool_decide (tab_id ∈ pane_ids tc) then
    mkTabbedContent (remove_first tab_id (panes tc))
      (if bool_decide (active tc = tab_id)
       then next_active (panes tc) tab_id else active tc)
  else tc.

(** [on_mount]; the timer that [set_interval] starts is the caller of
    [check_coreminer_output]. *)
Definition on_mount (self : MainView) : MainView :=
  set_process (Some (mkProcess (data_store self) [])) self.

(** [_create_widget] *)
Definition _create_widget (self : MainView) (widget_name : string) : Widget :=
  if bool_decide (widget_name = "RawResponses") then
    RawResponses (data_store self)
  else if bool_decide (widget_name = "Registers") then
    Registers (data_store self)
  else if bool_decide (widget_name = "Stack") then
    Stack (data_store self)
  else if bool_decide (widget_name = "Output") then
    Output (data_store self)
  else if bool_decide (widget_name = "Disassembly") then
    Disassembly (data_store self)
  else if bool_decide (widget_name = "Backtrace") then
    Backtrace (data_store self)
  else
    Static ("Unknown widget: " +:+ widget_name).

(** [self.tab_counters[k]] *)
Definition counter_of (self : MainView) (k : string) : result Z :=
  match tab_counters self !! k with
  | Some c => Ok c
  | None => Raise (KeyError k)
  end.

(** [self.add_tab_map[k]] *)
Definition plus_tab_of (self : MainView) (k : string) : result string :=
  match dict_get (add_tab_map self) k with
  | Some plus_tab_id => Ok plus_tab_id
  | None => Raise (KeyError k)
  end.

(** [add_tab] *)
Definition add_tab (tabbed_content_id widget_name : string) (self : MainView)
  : result MainView :=
  if negb (dict_mem (add_tab_map self) tabbed_content_id) then
    Ok (print ("No such tabbed content: " +:+ tabbed_content_id) self)
  else
    do tabbed_content <- query_one_tabbed self tabbed_content_id ;;
    do old <- counter_of self tabbed_content_id ;;
    let self := set_tab_counters
                  (<[tabbed_content_id := old + 1]> (tab_counters self)) self in
    do counter_value <- counter_of self tabbed_content_id ;;
    let new_tab_id := tabbed_content_id +:+ "_tab_" +:+ PyStr.str counter_value in
    let new_tab_name := widget_name in
    let widget := _create_widget self widget_name in
    let delete_button_id :=
      "delete_" +:+ tabbed_content_id +:+ "_" +:+ new_tab_id in
    let content_container :=
      ScrollableContainer
        [VerticalScroll [widget]; Button "Close Tab" delete_button_id] in
    do add_tab_id <- plus_tab_of self tabbed_content_id ;;
    do tabbed_content <-
      add_pane (mkTabPane new_tab_name [content_container] new_tab_id)
        add_tab_id tabbed_content ;;
    let tabbed_content := mkTabbedContent (panes tabbed_content) new_tab_id in
    Ok (set_tabbed_contents
          (<[tabbed_content_id := tabbed_content]> (tabbed_contents self)) self).

(** [_on_widget_choice]: [None] is "no selection". *)
Definition _on_widget_choice (choice : option string) (tabbed_content_id : string)
  (self : MainView) : result MainView :=
  match choice with
  | Some widget_name => add_tab tabbed_content_id widget_name self
  | None => Ok self
  end.

(** The [for candidate_id in self.add_tab_map] loop of [delete_tab]: the
    first region whose prefix starts [remainder], with the rest of it. *)
Fixpoint match_region (candidates : list (string * string)) (remainder : string)
  : option string * option string :=
  match candidates with
  | [] => (None, None)
  | (candidate_id, _) :: rest =>
      let prefix := candidate_id +:+ "_" in
      if PyStr.startswith remainder prefix then
        (Some candidate_id, Some (PyStr.drop (PyStr.len prefix) remainder))
      else match_region rest remainder
  end.

(** Truth value of a variable that is [None] or a string. *)
Definition truthy (x : option string) : bool :=
  match x with
  | Some s => PyStr.truthy s
  | None => false
  end.

(** [delete_tab] *)
Definition delete_tab (delete_button_id : string) (self : MainView)
  : result MainView :=
  let remainder := PyStr.removeprefix delete_button_id "delete_" in
  let '(tabbed_content_id, tab_id) := match_region (add_tab_map self) remainder in
  if negb (truthy tabbed_content_id) || negb (truthy tab_id) then Ok self
  else
    match tabbed_content_id, tab_id with
    | Some tabbed_content_id, Some tab_id =>
        do plus_tab_id <- plus_tab_of self tabbed_content_id ;;
        if bool_decide (tab_id = plus_tab_id) then Ok self
        else
          do tabbed_content <- query_one_tabbed self tabbed_content_id ;;
          Ok (set_tabbed_contents
                (<[tabbed_content_id := remove_pane tab_id tabbed_content]>
                   (tabbed_contents self)) self)
    | _, _ => Ok self
    end.

(** [hasattr(child, "update_content") and callable(child.update_content)]:
    [Output] defines the method, Textual's own widgets do not. *)
Definition has_update_content (child : Widget) : bool :=
  match child with
  | Output _ => true
  | RawResponses _ => exposes_update_content URawResponses
  | Registers _ => exposes_update_content URegisters
  | Stack _ => exposes_update_content UStack
  | Disassembly _ => exposes_update_content UDisassembly
  | Backtrace _ => exposes_update_content UBacktrace
  | Static _ | Button _ _ | VerticalScroll _ | ScrollableContainer _ => false
  end.

(** The widget and everything below it, depth first. *)
Fixpoint walk (w : Widget) : list Widget :=
  w :: match w with
       | VerticalScroll children | ScrollableContainer children =>
           flat_map walk children
       | _ => []
       end.

(** [pane.query()]: every widget below the pane, in DOM order. *)
Definition query_all (pane : TabPane) : list Widget :=
  flat_map walk (pane_children pane).

(** [for child in pane.query(): ...]; [calls] collects the widgets whose
    [update_content()] has been called so far. *)
Fixpoint update_children (children : list Widget) (calls : list Widget)
  : list Widget :=
  match children with
  | [] => calls
  | child :: rest =>
      update_children rest
        (if has_update_content child then calls ++ [child] else calls)
  end.

(** [for pane in panes: ...] *)
Fixpoint update_panes (plus_tab_id : string) (ps : list TabPane)
  (calls : list Widget) : list Widget :=
  match ps with
  | [] => calls
  | pane :: rest =>
      if bool_decide (pane_id pane = plus_tab_id) then
        update_panes plus_tab_id rest calls
      else
        update_panes plus_tab_id rest (update_children (query_all pane) calls)
  end.

(** [for tabbed_content_id, plus_tab_id in self.add_tab_map.items(): ...] *)
Fixpoint update_regions (self : MainView) (items : list (string * string))
  (calls : list Widget) : result (list Widget) :=
  match items with
  | [] => Ok calls
  | (tabbed_content_id, plus_tab_id) :: rest =>
      do tabbed_content <- query_one_tabbed self tabbed_content_id ;;
      update_regions self rest
        (update_panes plus_tab_id (panes tabbed_content) calls)
  end.

(** [update_all_widgets]: the widgets whose [update_content()] it calls, in
    call order. *)
Definition update_all_widgets (self : MainView) : result (list Widget) :=
  update_regions self (add_tab_map self) [].

(** [check_coreminer_output]; [response] is the truth value of what
    [self.process.get_response()] returned. *)
Definition check_coreminer_output (response : bool) (self : MainView)
  : result (list Widget) :=
  match process self with
  | None => Raise (AttributeError "process")
  | Some _ => if response then update_all_widgets self else Ok []
  end.

(** [event.stop()] *)
Definition stop (event : Key) : Key := mkKey (key event) true.

(** [on_key] *)
Definition on_key (event : Key) (self : MainView) : result (MainView * Key) :=
  if negb (has_focus (command_input self)) then Ok (self, event)
  else if bool_decide (key event = "up") then
    let event := stop event in
    let self :=
      if 0 <? history_index self
      then set_history_index (history_index self - 1) self else self in
    if (0 <=? history_index self) && (history_index self <? len_history self)
    then
      do entry <- getitem (command_history self) (history_index self) ;;
      Ok (set_value entry self, event)
    else Ok (self, event)
  else if bool_decide (key event = "down") then
    let event := stop event in
    let self :=
      if history_index self <? len_history self
      then set_history_index (history_index self + 1) self else self in
    if history_index self =? len_history self
    then Ok (set_value "" self, event)
    else
      do entry <- getitem (command_history self) (history_index self) ;;
      Ok (set_value entry self, event)
  else Ok (self, event).

(** [process_command] *)
Definition process_command (command : string) (self : MainView)
  : result MainView :=
  let self := set_command_history (command_history self ++ [command]) self in
  match process self with
  | None => Raise (AttributeError "process")
  | Some p =>
      Ok (set_process
            (Some (mkProcess (store p) (parsed_commands p ++ [command]))) self)
  end.

(** [on_input_submitted]; the only input of the screen is the command
    input, so [event.input.value = ""] clears that one. *)
Definition on_input_submitted (event : Submitted) (self : MainView)
  : result MainView :=
  if bool_decide (input_id event = "command_input") then
    let command := PyStr.strip (submitted_value event) in
    do self <- (if PyStr.truthy command
                then process_command command self else Ok self) ;;
    let self := set_value "" self in
    Ok (set_history_index (len_history self) self)
  else Ok self.

(** ** Events *)

(** What reaches the view: Textual calls the handler the class defines for
    the message, and the class defines none for [Input.Changed], [Focus]
    or [Blur]; those only change the input widget itself. *)
Inductive Event : Type :=
  | Mount
  | KeyPressed (k : string)
  | InputSubmitted (e : Submitted)
  | InputChanged (new_value : string)
  | FocusChanged (focused : bool)
  | WidgetChosen (choice : option string) (tabbed_content_id : string)
  | AddTab (tabbed_content_id widget_name : string)
  | DeleteTab (delete_button_id : string)
  | Tick (response : bool).

Definition step (e : Event) (self : MainView) : result MainView :=
  match e with
  | Mount => Ok (on_mount self)
  | KeyPressed k => do r <- on_key (mkKey k false) self ;; Ok (fst r)
  | InputSubmitted ev => on_input_submitted ev self
  | InputChanged new_value => Ok (set_value new_value self)
  | FocusChanged focused =>
      Ok (set_command_input (mkInput (value (command_input self)) focused) self)
  | WidgetChosen choice tabbed_content_id =>
      _on_widget_choice choice tabbed_content_id self
  | AddTab tabbed_content_id widget_name =>
      add_tab tabbed_content_id widget_name self
  | DeleteTab delete_button_id => delete_tab delete_button_id self
  | Tick response => do _ <- check_coreminer_output response self ;; Ok self
  end.

Fixpoint run (es : list Event) (self : MainView) : result MainView :=
  match es with
  | [] => Ok self
  | e :: es' => do self' <- step e self ;; run es' self'
  end.

(** The views an instance can be in. *)
Inductive reachable : MainView -> Prop :=
  | reachable_new ds : reachable (new_view ds)
  | reachable_step e self self' :
      reachable self -> step e self = Ok self' -> reachable self'.

End Handlers.

(** ** Vocabulary of the properties *)

(** The kind tokens [_create_widget] knows. *)
Definition known_kinds : list string :=
  ["RawResponses"; "Registers"; "Stack"; "Output"; "Disassembly"; "Backtrace"].

(** The id [add_tab] gives the tab with ordinal [k] of region [r]. *)
Definition tab_id_of (r : string) (k : Z) : string :=
  r +:+ "_tab_" +:+ PyStr.str k.

(** The pane [add_tab] builds for that tab. *)
Definition tab_pane_of (self : MainView) (r widget_name : string) (k : Z) : TabPane :=
  mkTabPane widget_name
    [ScrollableContainer
       [VerticalScroll [_create_widget self widget_name];
        Button "Close Tab" ("delete_" +:+ r +:+ "_" +:+ tab_id_of r k)]]
    (tab_id_of r k).


(** The view [add_tab] returns for a known region, written out. *)
Definition added (self : MainView) (r widget_name : string) (c : Z)
  (front : list TabPane) (plus : string) : MainView :=
  set_tabbed_contents
    (<[r := mkTabbedContent
              (front ++ [tab_pane_of self r widget_name (c + 1); plus_pane r plus])
              (tab_id_of r (c + 1))]> (tabbed_contents self))
    (set_tab_counters (<[r := c + 1]> (tab_counters self)) self).

(** The view [delete_tab] returns when it removes tab [t] of region [r]. *)
Definition deleted (next_active : list TabPane -> string -> string)
  (self : MainView) (r t : string) (tc : TabbedContent) : MainView :=
  set_tabbed_contents
    (<[r := remove_pane next_active t tc]> (tabbed_contents self)) self.

(** Region [r] with sentinel [plus] is in order: it has a counter [c >= 0]
    and a tabbed content whose panes are tabs [r_tab_k] with [1 <= k <= c],
    all different, followed by the sentinel pane. *)
Definition region_ok (self : MainView) (r plus : string) : Prop :=
  exists c tc front,
    tab_counters self !! r = Some c /\ 0 <= c /\
    tabbed_contents self !! r = Some tc /\
    panes tc = front ++ [plus_pane r plus] /\
    Forall (fun p => exists k, 1 <= k <= c /\ pane_id p = tab_id_of r k) front /\
    NoDup (pane_id <$> front).

(** The invariant of the view: [add_tab_map] is the table of [__init__],
    every region of the table is in order, and the history cursor lies
    between 0 and the length of the history. *)
Definition Inv (self : MainView) : Prop :=
  add_tab_map self = regions /\
  (forall r plus, dict_get regions r = Some plus -> region_ok self r plus) /\
  0 <= history_index self <= len_history self.

(** The panes of a region other than its sentinel, in tab order. *)
Definition non_sentinel (plus_tab_id : string) (ps : list TabPane) : list TabPane :=
  List.filter (fun p => negb (bool_decide (pane_id p = plus_tab_id))) ps.

(** The panes of the tabbed content with id [r]. *)
Definition region_panes (self : MainView) (r : string) : list TabPane :=
  match tabbed_contents self !! r with
  | Some tc => panes tc
  | None => []
  end.

(** Every non-sentinel pane of the view, region by region in the order of
    [add_tab_map], tab by tab within a region. *)
Definition broadcast_targets (self : MainView) : list TabPane :=
  flat_map (fun item => non_sentinel (snd item) (region_panes self (fst item)))
    (add_tab_map self).

(** The calls [update_content()] that one pane receives. *)
Definition updates_of (exposes_update_content : UnseenWidget -> bool)
  (pane : TabPane) : list Widget :=
  List.filter (has_update_content exposes_update_content) (query_all pane).

(** ** A concrete setting for the examples *)

(** Every custom widget class defines [update_content], as [Output] does. *)
Definition every_widget_updates (w : UnseenWidget) : bool := true.

(** One possible choice of the tab to activate after a removal, the first
    remaining one; it only fills the parameter [next_active] in the
    examples and need not be the choice Textual makes. *)
Definition activate_first (ps : list TabPane) (removed : string) : string :=
  match remove_first removed ps with
  | [] => ""
  | p :: _ => pane_id p
  end.

(** A fresh view over the store at address 1. *)
Definition fresh_view : MainView := new_view (DataStoreRef 1).

(** A mounted view whose focused command input has seen "a" and "b". *)
Definition view_ab : MainView :=
  set_command_input (mkInput "" true)
    (set_history_index 2
       (set_command_history ["a"; "b"] (on_mount fresh_view))).

(** Mount, open three tabs in two regions, close the first, open another. *)
Definition tab_session : list Event :=
  [Mount; AddTab "main_tabs" "Output"; AddTab "main_tabs" "Frobnicate";
   AddTab "small_tabs_1" "Stack"; DeleteTab "delete_main_tabs_main_tabs_tab_1";
   AddTab "main_tabs" "Output"].

(** Mount, focus, submit "a" and "b", recall "b" with Up, then type. *)
Definition recall_then_edit : list Event :=
  [Mount; FocusChanged true;
   InputSubmitted (mkSubmitted "command_input" "a");
   InputSubmitted (mkSubmitted "command_input" "b");
   KeyPressed "up"; InputChanged "bx"].

(** ** Button presses *)

(** [s.replace(old, new)] for a non-empty [old]: occurrences are found from
    left to right and do not overlap; [skip] counts the characters of the
    occurrence just replaced that are still to be passed over. *)
Fixpoint replace_from (skip : nat) (s old new : string) : string :=
  match s with
  | EmptyString => EmptyString
  | String c s' =>
      match skip with
      | S k => replace_from k s' old new
      | O =>
          if PyStr.startswith s old
          then new +:+ replace_from (PyStr.len old - 1) s' old new
          else String c (replace_from 0 s' old new)
      end
  end.

(** [s.replace("", new)]: [new] goes before every character and at the end. *)
Fixpoint intersperse (s new : string) : string :=
  match s with
  | EmptyString => new
  | String c s' => new +:+ String c (intersperse s' new)
  end.

(** [s.replace(old, new)] *)
Definition str_replace (s old new : string) : string :=
  match old with
  | EmptyString => intersperse s new
  | _ => replace_from 0 s old new
  end.

(** The callback handed to [push_screen] together with [WidgetSelector()];
    the app calls it with the choice once the modal is closed, on the view
    as it is then. *)
Definition Callback : Type := option string -> MainView -> result MainView.

(** [on_button_pressed]: the view after the press and, for an "add_"
    button, the callback of the selector that was pushed. *)
Definition on_button_pressed (next_active : list TabPane -> string -> string)
  (button_id : string) (self : MainView) : result (MainView * option Callback) :=
  if PyStr.startswith button_id "add_" then
    let tabbed_content_id := str_replace button_id "add_" "" in
    Ok (self, Some (fun choice => _on_widget_choice choice tabbed_content_id))
  else if PyStr.startswith button_id "delete_" then
    do self' <- delete_tab next_active button_id self ;; Ok (self', None)
  else Ok (self, None).

(** ** Vocabulary of the further properties *)

(** A tab as [add_tab] made it: its ordinal and the widget name it was
    given. *)
Definition pane_of_entry (self : MainView) (r : string) (e : Z * string) : TabPane :=
  tab_pane_of self r (snd e) (fst e).

(** Region [r] holds, before its sentinel, panes exactly as [add_tab] builds
    them, in increasing order of their ordinals, none above the counter. *)
Definition region_shaped (self : MainView) (r plus : string) : Prop :=
  exists c tc entries,
    tab_counters self !! r = Some c /\
    tabbed_contents self !! r = Some tc /\
    panes tc = (pane_of_entry self r <$> entries) ++ [plus_pane r plus] /\
    StronglySorted Z.lt (fst <$> entries) /\
    Forall (fun e => 1 <= fst e <= c) entries.

Definition Shaped (self : MainView) : Prop :=
  forall r plus, dict_get regions r = Some plus -> region_shaped self r plus.

(** Every recorded command is non-empty and stripped, and the process, once
    started, works on the view's store and has been handed a final segment
    of the history. *)
Definition History_ok (self : MainView) : Prop :=
  Forall (fun h => PyStr.truthy h = true /\ PyStr.strip h = h)
    (command_history self) /\
  match process self with
  | Some p => store p = data_store self /\
              parsed_commands p `suffix_of` command_history self
  | None => True
  end.

(** Letters, digits and the underscore: the characters of the ids the view
    builds. *)
Definition identifier_char (c : ascii) : bool :=
  let n := nat_of_ascii c in
  ((48 <=? n) && (n <=? 57))%nat || ((65 <=? n) && (n <=? 90))%nat
  || ((97 <=? n) && (n <=? 122))%nat || (n =? 95)%nat.

Fixpoint identifier_shaped (s : string) : bool :=
  match s with
  | EmptyString => true
  | String c s' => identifier_char c && identifier_shaped s'
  end.

(** An event that, if it is a deletion, carries an id of that shape. *)
Definition plain_deletion (e : Event) : Prop :=
  match e with
  | DeleteTab delete_button_id => identifier_shaped delete_button_id = true
  | _ => True
  end.

(** [n] presses of the same key. *)
Definition presses (n : nat) (k : string) : list Event :=
  replicate n (KeyPressed k).

(** A string that is empty or starts with a character that is not white
    space. *)
Definition starts_nonspace (s : string) : Prop :=
  match s with
  | EmptyString => True
  | String c _ => PyStr.isspace c = false
  end.

(** The view after [tab_session]. *)
Definition session_view : MainView :=
  match run every_widget_updates activate_first tab_session fresh_view with
  | Ok self => self
  | Raise _ => fresh_view
  end.

(** Mount, focus, submit " a " and "b", then recall "b" with Up. *)
Definition history_session : list Event :=
  [Mount; FocusChanged true;
   InputSubmitted (mkSubmitted "command_input" " a ");
   InputSubmitted (mkSubmitted "command_input" "b");
   KeyPressed "up"].

(** The view after [history_session]. *)
Definition history_view : MainView :=
  match run every_widget_updates activate_first history_session fresh_view with
  | Ok self => self
  | Raise _ => fresh_view
  end.

(** * Properties *)

(** ** Strings *)

Module PyStrFacts.
Import PyStr.

Lemma startswith_refl s : startswith s s = true.
Proof.
  induction s as [|a s IH]; simpl; [done|].
  by rewrite bool_decide_eq_true_2, IH.
Qed.

Lemma app_cons a (p s : string) : String a p +:+ s = String a (p +:+ s).
Proof. reflexivity. Qed.

Lemma app_nil (s : string) : "" +:+ s = s.
Proof. reflexivity. Qed.

Lemma startswith_app p s : startswith (p +:+ s) p = true.
Proof.
  induction p as [|a p IH]; [reflexivity|].
  rewrite app_cons; simpl. by rewrite bool_decide_eq_true_2, IH.
Qed.

Lemma drop_app p s : drop (len p) (p +:+ s) = s.
Proof. induction p as [|a p IH]; [reflexivity|]. by rewrite app_cons. Qed.

Lemma removeprefix_app p s : removeprefix (p +:+ s) p = s.
Proof. unfold removeprefix. by rewrite startswith_app, drop_app. Qed.

Lemma contains_app p s : contains (p +:+ s) s = true.
Proof.
  induction p as [|a p IH].
  - rewrite app_nil. destruct s; simpl; [reflexivity|].
    by rewrite bool_decide_eq_true_2, startswith_refl.
  - rewrite app_cons; simpl. rewrite IH. apply orb_true_r.
Qed.

Lemma app_assoc (a b c : string) : (a +:+ b) +:+ c = a +:+ (b +:+ c).
Proof.
  induction a as [|x a IH]; [reflexivity|]. rewrite !app_cons. by f_equal.
Qed.

End PyStrFacts.

(** ** The region table *)

Lemma regions_cases r plus :
  dict_get regions r = Some plus ->
  (r, plus) = ("main_tabs", "add_main") \/
  (r, plus) = ("small_tabs_1", "add_small_1") \/
  (r, plus) = ("small_tabs_2", "add_small_2") \/
  (r, plus) = ("medium_tabs", "add_medium").
Proof.
  unfold regions; simpl. intros H.
  repeat case_bool_decide; naive_solver.
Qed.

(** After each region's own prefix, the loop of [delete_tab] stops at that
    region and hands back the rest of the id. *)
Lemma match_region_own r plus rest :
  dict_get regions r = Some plus ->
  match_region regions ((r +:+ "_") +:+ rest) = (Some r, Some rest).
Proof.
  intros H. destruct (regions_cases _ _ H) as [E|[E|[E|E]]];
    injection E as -> ->; reflexivity.
Qed.

(** A sentinel id never starts like a tab id of its own region. *)
Lemma plus_not_tab r plus rest :
  dict_get regions r = Some plus -> plus <> r +:+ rest.
Proof.
  intros H. destruct (regions_cases _ _ H) as [E|[E|[E|E]]];
    injection E as -> ->; discriminate.
Qed.

(** ** Tab ids *)

Lemma tab_id_of_inj r k1 k2 : tab_id_of r k1 = tab_id_of r k2 -> k1 = k2.
Proof.
  unfold tab_id_of, PyStr.str. intros H.
  apply (inj (String.app r)) in H. apply (inj (String.app "_tab_")) in H.
  by apply pretty_Z_inj in H.
Qed.

Lemma plus_not_tab_id r plus k :
  dict_get regions r = Some plus -> plus <> tab_id_of r k.
Proof. intros H. unfold tab_id_of. by apply plus_not_tab. Qed.

(** ** Panes *)

Lemma insert_before_last pane plus front sentinel :
  Forall (fun p => pane_id p <> plus) front ->
  pane_id sentinel = plus ->
  insert_before pane plus (front ++ [sentinel]) = Some (front ++ [pane; sentinel]).
Proof.
  intros Hfront Hs. induction Hfront as [|p front Hp _ IH]; simpl.
  - by rewrite bool_decide_eq_true_2.
  - rewrite bool_decide_eq_false_2 by done. by rewrite IH.
Qed.

Lemma remove_first_last tab_id front sentinel :
  pane_id sentinel <> tab_id ->
  remove_first tab_id (front ++ [sentinel]) = remove_first tab_id front ++ [sentinel].
Proof.
  intros Hs. induction front as [|p front IH]; simpl.
  - by rewrite bool_decide_eq_false_2.
  - case_bool_decide; [done|]. by rewrite IH.
Qed.

Lemma remove_first_sublist tab_id l : remove_first tab_id l `sublist_of` l.
Proof.
  induction l as [|p l IH]; simpl; [done|].
  case_bool_decide; [by apply sublist_cons | by apply sublist_skip].
Qed.

Lemma remove_first_Forall (P : TabPane -> Prop) tab_id l :
  Forall P l -> Forall P (remove_first tab_id l).
Proof.
  induction 1 as [|p l Hp Hl IH]; simpl; [done|].
  case_bool_decide; [done|by constructor].
Qed.

Lemma remove_first_not_in tab_id l :
  tab_id ∉ pane_id <$> l -> remove_first tab_id l = l.
Proof.
  induction l as [|p l IH]; simpl; [done|]. intros Hn.
  rewrite not_elem_of_cons in Hn. destruct Hn as [Hne Hn].
  rewrite bool_decide_eq_false_2 by done. by rewrite IH.
Qed.

(** ** The invariant of the view *)

Lemma Inv_new_view ds : Inv (new_view ds).
Proof.
  split; [done|]. split; [|done].
  intros r plus H. exists 0, (plus_region r plus), [].
  destruct (regions_cases _ _ H) as [E|[E|[E|E]]]; injection E as -> ->;
    repeat split; try done; constructor.
Qed.

(** ** [add_tab] *)

Lemma dict_mem_regions r plus :
  dict_get regions r = Some plus -> dict_mem regions r = true.
Proof. unfold dict_mem. by intros ->. Qed.

Lemma add_tab_known self r plus widget_name :
  Inv self -> dict_get regions r = Some plus ->
  exists c tc front,
    tab_counters self !! r = Some c /\ 0 <= c /\
    tabbed_contents self !! r = Some tc /\
    panes tc = front ++ [plus_pane r plus] /\
    Forall (fun p => exists k, 1 <= k <= c /\ pane_id p = tab_id_of r k) front /\
    NoDup (pane_id <$> front) /\
    add_tab r widget_name self = Ok (added self r widget_name c front plus).
Proof.
  intros (Hmap & Hreg & _) Hr.
  destruct (Hreg r plus Hr) as (c & tc & front & Hc & Hc0 & Htc & Hp & Hall & Hnd).
  exists c, tc, front. repeat split; try done.
  unfold add_tab. rewrite Hmap, (dict_mem_regions _ _ Hr). simpl.
  unfold query_one_tabbed. rewrite Htc. simpl.
  unfold counter_of. rewrite Hc. simpl. rewrite lookup_insert_eq. simpl.
  unfold plus_tab_of. simpl. rewrite Hmap, Hr. simpl.
  unfold add_pane. simpl.
  fold (tab_id_of r (c + 1)).
  rewrite bool_decide_eq_false_2.
  - rewrite Hp. rewrite (insert_before_last _ plus front (plus_pane r plus)).
    + reflexivity.
    + eapply Forall_impl; [exact Hall|]. intros p (k & _ & ->) E.
      by eapply plus_not_tab_id.
    + done.
  - unfold pane_ids. rewrite Hp, fmap_app. simpl.
    rewrite elem_of_app, list_elem_of_singleton. intros [Hin|Heq].
    + apply list_elem_of_fmap in Hin as (p & Hid & Hin).
      rewrite Forall_forall in Hall. destruct (Hall p Hin) as (k & Hk & Hpk).
      rewrite Hpk in Hid. apply tab_id_of_inj in Hid. lia.
    + symmetry in Heq. by eapply plus_not_tab_id.
Qed.

(** Looking up a key of the region table decides which region it is. *)
Lemma dict_get_regions_inj r plus plus' :
  dict_get regions r = Some plus -> dict_get regions r = Some plus' -> plus = plus'.
Proof. congruence. Qed.

Lemma Inv_added self r plus widget_name c tc front :
  Inv self -> dict_get regions r = Some plus ->
  tab_counters self !! r = Some c -> 0 <= c ->
  tabbed_contents self !! r = Some tc ->
  panes tc = front ++ [plus_pane r plus] ->
  Forall (fun p => exists k, 1 <= k <= c /\ pane_id p = tab_id_of r k) front ->
  NoDup (pane_id <$> front) ->
  Inv (added self r widget_name c front plus).
Proof.
  intros (Hmap & Hreg & Hidx) Hr Hc Hc0 Htc Hp Hall Hnd.
  split; [done|]. split; [|done].
  intros r' plus' Hr'. destruct (decide (r = r')) as [<-|Hne].
  - assert (plus' = plus) as -> by congruence.
    exists (c + 1), (mkTabbedContent
      (front ++ [tab_pane_of self r widget_name (c + 1); plus_pane r plus])
      (tab_id_of r (c + 1))), (front ++ [tab_pane_of self r widget_name (c + 1)]).
    simpl. rewrite !lookup_insert_eq. repeat split; try done; try lia.
    + by rewrite <- app_assoc.
    + apply Forall_app. split.
      * eapply Forall_impl; [exact Hall|]. intros p (k & Hk & E).
        exists k. split; [lia|done].
      * apply Forall_singleton. exists (c + 1). split; [lia|done].
    + rewrite fmap_app. apply NoDup_app. repeat split; try done.
      * intros x Hin Hx. simpl in Hx. apply list_elem_of_singleton in Hx as ->.
        apply list_elem_of_fmap in Hin as (p & Hid & Hin).
        rewrite Forall_forall in Hall. destruct (Hall p Hin) as (k & Hk & Hpk).
        rewrite Hpk in Hid. apply tab_id_of_inj in Hid. lia.
      * simpl. apply NoDup_singleton.
  - destruct (Hreg r' plus' Hr') as (c' & tc' & front' & ? & ? & ? & ? & ? & ?).
    exists c', tc', front'. simpl. rewrite !lookup_insert_ne by done. done.
Qed.

Lemma add_tab_unknown self r widget_name :
  dict_mem (add_tab_map self) r = false ->
  add_tab r widget_name self = Ok (print ("No such tabbed content: " +:+ r) self).
Proof. intros H. unfold add_tab. by rewrite H. Qed.

Lemma Inv_print line self : Inv self -> Inv (print line self).
Proof. by intros (? & ? & ?). Qed.

Lemma add_tab_Inv self r widget_name :
  Inv self -> exists self', add_tab r widget_name self = Ok self' /\ Inv self'.
Proof.
  intros HI. destruct (dict_get regions r) as [plus|] eqn:Hr.
  - destruct (add_tab_known self r plus widget_name HI Hr)
      as (c & tc & front & ? & ? & ? & ? & ? & ? & ->).
    eexists. split; [done|]. by eapply Inv_added.
  - eexists. split; [|by apply Inv_print].
    apply add_tab_unknown. destruct HI as (-> & _). unfold dict_mem. by rewrite Hr.
Qed.

(** ** [delete_tab] *)

Lemma match_region_known d remainder r t :
  match_region d remainder = (Some r, t) -> exists plus, dict_get d r = Some plus.
Proof.
  induction d as [|[cand plus] d IH]; simpl; [done|].
  destruct (PyStr.startswith _ _).
  - intros [= -> _]. exists plus. by rewrite bool_decide_eq_true_2.
  - intros H. destruct (IH H) as (plus' & Hp). case_bool_decide; eauto.
Qed.

Lemma match_region_shape d remainder :
  (exists r t, match_region d remainder = (Some r, Some t)) \/
  match_region d remainder = (None, None).
Proof.
  induction d as [|[cand plus] d IH]; simpl; [by right|].
  destruct (PyStr.startswith _ _); [left; eauto|done].
Qed.

Section Deletion.

Variable next_active : list TabPane -> string -> string.

Lemma delete_tab_removes self delete_button_id r plus t tc :
  add_tab_map self = regions ->
  match_region regions (PyStr.removeprefix delete_button_id "delete_")
    = (Some r, Some t) ->
  dict_get regions r = Some plus ->
  PyStr.truthy t = true -> t <> plus ->
  tabbed_contents self !! r = Some tc ->
  delete_tab next_active delete_button_id self = Ok (deleted next_active self r t tc).
Proof.
  intros Hmap Hm Hr Htt Ht Htc. unfold delete_tab. rewrite Hmap, Hm.
  assert (Htr : PyStr.truthy r = true).
  { destruct (regions_cases _ _ Hr) as [E|[E|[E|E]]]; by injection E as -> ->. }
  simpl. rewrite Htr, Htt. simpl.
  unfold plus_tab_of. rewrite Hmap, Hr. simpl.
  rewrite bool_decide_eq_false_2 by done.
  unfold query_one_tabbed. by rewrite Htc.
Qed.

(** [delete_tab] either leaves the view as it is or removes one pane other
    than the sentinel from one known region. *)
Lemma delete_tab_cases self delete_button_id :
  Inv self ->
  delete_tab next_active delete_button_id self = Ok self \/
  exists r plus t tc,
    dict_get regions r = Some plus /\ t <> plus /\
    tabbed_contents self !! r = Some tc /\
    match_region regions (PyStr.removeprefix delete_button_id "delete_")
      = (Some r, Some t) /\
    delete_tab next_active delete_button_id self = Ok (deleted next_active self r t tc).
Proof.
  intros (Hmap & Hreg & _). unfold delete_tab. rewrite Hmap.
  destruct (match_region_shape regions
              (PyStr.removeprefix delete_button_id "delete_"))
    as [(r & t & E)|E]; rewrite E; [|by left].
  destruct (match_region_known _ _ _ _ E) as (plus & Hr).
  destruct (negb (truthy (Some r)) || negb (truthy (Some t))); [by left|].
  unfold plus_tab_of. rewrite Hmap, Hr. simpl.
  case_bool_decide as Ht; [by left|].
  destruct (Hreg r plus Hr) as (c & tc & front & _ & _ & Htc & _).
  unfold query_one_tabbed. rewrite Htc. simpl.
  right. by exists r, plus, t, tc.
Qed.

Lemma Inv_deleted self r plus t tc :
  Inv self -> dict_get regions r = Some plus -> t <> plus ->
  tabbed_contents self !! r = Some tc ->
  Inv (deleted next_active self r t tc).
Proof.
  intros (Hmap & Hreg & Hidx) Hr Ht Htc.
  split; [done|]. split; [|done].
  intros r' plus' Hr'. destruct (decide (r = r')) as [<-|Hne].
  - assert (plus' = plus) as -> by congruence.
    destruct (Hreg r plus Hr) as (c & tc' & front & Hc & Hc0 & Htc' & Hp & Hall & Hnd).
    assert (tc' = tc) as -> by congruence.
    unfold deleted, remove_pane. simpl.
    case_bool_decide as Hin.
    + exists c, (mkTabbedContent (remove_first t (panes tc))
        (if bool_decide (active tc = t) then next_active (panes tc) t
         else active tc)), (remove_first t front).
      simpl. rewrite lookup_insert_eq. simpl. repeat split; try done.
      * rewrite Hp. apply remove_first_last. simpl. congruence.
      * by apply remove_first_Forall.
      * eapply sublist_NoDup; [exact Hnd|].
        apply fmap_sublist, remove_first_sublist.
    + exists c, tc, front. simpl. rewrite lookup_insert_eq. done.
  - destruct (Hreg r' plus' Hr') as (c' & tc' & front' & ? & ? & ? & ? & ? & ?).
    exists c', tc', front'. simpl. rewrite lookup_insert_ne by done. done.
Qed.

Lemma delete_tab_Inv self delete_button_id :
  Inv self ->
  exists self', delete_tab next_active delete_button_id self = Ok self' /\
                Inv self' /\ tab_counters self' = tab_counters self.
Proof.
  intros HI. destruct (delete_tab_cases self delete_button_id HI)
    as [->|(r & plus & t & tc & Hr & Ht & Htc & _ & ->)].
  - by exists self.
  - eexists. split; [done|]. split; [by eapply Inv_deleted|done].
Qed.

End Deletion.

(** ** Command history *)

Lemma getitem_in_range {A : Type} (l : list A) (i : Z) :
  0 <= i < Z.of_nat (length l) ->
  exists x, getitem l i = Ok x /\ l !! Z.to_nat i = Some x.
Proof.
  intros Hi. unfold getitem.
  destruct (Z.ltb_spec i 0); [lia|].
  destruct (Z.leb_spec 0 i); [|lia].
  destruct (Z.ltb_spec i (Z.of_nat (length l))); [|lia]. simpl.
  destruct (lookup_lt_is_Some_2 l (Z.to_nat i)) as [x Hx]; [lia|].
  rewrite Hx. eauto.
Qed.

(** The invariant only reads the tab fields, the history and its cursor. *)
Lemma Inv_history self self' :
  Inv self ->
  add_tab_map self' = add_tab_map self ->
  tab_counters self' = tab_counters self ->
  tabbed_contents self' = tabbed_contents self ->
  0 <= history_index self' <= len_history self' ->
  Inv self'.
Proof.
  intros (Hmap & Hreg & _) E1 E2 E3 Hidx. unfold Inv, region_ok.
  rewrite E1, E2, E3. done.
Qed.

Lemma Inv_frame self self' :
  Inv self ->
  add_tab_map self' = add_tab_map self ->
  tab_counters self' = tab_counters self ->
  tabbed_contents self' = tabbed_contents self ->
  history_index self' = history_index self ->
  command_history self' = command_history self ->
  Inv self'.
Proof.
  intros HI E1 E2 E3 E4 E5. eapply Inv_history; [exact HI|done..|].
  destruct HI as (_ & _ & Hidx). unfold len_history in *. by rewrite E4, E5.
Qed.

Lemma on_key_Inv event self self' event' :
  Inv self -> on_key event self = Ok (self', event') -> Inv self'.
Proof.
  intros HI H. pose proof HI as (_ & _ & Hidx).
  unfold on_key in H.
  destruct (negb (has_focus (command_input self))); [by simplify_eq|].
  case_bool_decide.
  - destruct (Z.ltb_spec 0 (history_index self)); simpl in H.
    + destruct (_ && _); simpl in H.
      * destruct (getitem _ _); simplify_eq/=.
        eapply Inv_history; [exact HI|done..|]. unfold len_history in *.
        simpl. lia.
      * simplify_eq. eapply Inv_history; [exact HI|done..|].
        unfold len_history in *. simpl. lia.
    + destruct (_ && _); simpl in H.
      * destruct (getitem _ _); simplify_eq/=.
        eapply Inv_history; [exact HI|done..].
      * by simplify_eq.
  - case_bool_decide; [|by simplify_eq].
    destruct (Z.ltb_spec (history_index self) (len_history self)); simpl in H.
    + destruct (_ =? _); simpl in H.
      * simplify_eq. eapply Inv_history; [exact HI|done..|].
        unfold len_history in *. simpl. lia.
      * destruct (getitem _ _); simplify_eq/=.
        eapply Inv_history; [exact HI|done..|]. unfold len_history in *.
        simpl. lia.
    + destruct (_ =? _); simpl in H.
      * simplify_eq. eapply Inv_history; [exact HI|done..].
      * destruct (getitem _ _); simplify_eq/=.
        eapply Inv_history; [exact HI|done..].
Qed.

Lemma process_command_fields command self self' :
  process_command command self = Ok self' ->
  command_history self' = command_history self ++ [command] /\
  add_tab_map self' = add_tab_map self /\
  tab_counters self' = tab_counters self /\
  tabbed_contents self' = tabbed_contents self /\
  command_input self' = command_input self /\
  exists p, process self = Some p /\
    process self' = Some (mkProcess (store p) (parsed_commands p ++ [command])).
Proof.
  unfold process_command. simpl. destruct (process self) as [p|]; [|done].
  intros [= <-]. simpl. eauto 10.
Qed.

Lemma on_input_submitted_Inv event self self' :
  Inv self -> on_input_submitted event self = Ok self' -> Inv self'.
Proof.
  intros HI H. unfold on_input_submitted in H.
  case_bool_decide; [|by simplify_eq].
  destruct (PyStr.truthy _).
  - destruct (process_command _ self) as [s|] eqn:E; [|done].
    apply process_command_fields in E as (? & ? & ? & ? & _).
    simpl in H. simplify_eq. eapply Inv_history; [exact HI|done..|].
    unfold len_history. simpl. lia.
  - simpl in H. simplify_eq. eapply Inv_history; [exact HI|done..|].
    unfold len_history. simpl. lia.
Qed.

Section Reachability.

Variable exposes_update_content : UnseenWidget -> bool.
Variable next_active : list TabPane -> string -> string.

Lemma step_Inv e self self' :
  Inv self -> step exposes_update_content next_active e self = Ok self' ->
  Inv self'.
Proof.
  intros HI H. destruct e; cbn [step] in H.
  - simplify_eq. by eapply Inv_frame.
  - destruct (on_key _ self) as [[s k']|] eqn:E; [|done].
    simpl in H. simplify_eq. by eapply on_key_Inv.
  - by eapply on_input_submitted_Inv.
  - simplify_eq. by eapply Inv_frame.
  - simplify_eq. by eapply Inv_frame.
  - destruct choice as [w|]; cbn [_on_widget_choice] in H; [|by simplify_eq].
    destruct (add_tab_Inv self tabbed_content_id w HI) as (s & Hs & ?).
    rewrite Hs in H. by simplify_eq.
  - destruct (add_tab_Inv self tabbed_content_id widget_name HI) as (s & Hs & ?).
    rewrite Hs in H. by simplify_eq.
  - destruct (delete_tab_Inv next_active self delete_button_id HI)
      as (s & Hs & ? & _).
    rewrite Hs in H. by simplify_eq.
  - destruct (check_coreminer_output _ _ _); simpl in H; by simplify_eq.
Qed.

Lemma reachable_Inv self :
  reachable exposes_update_content next_active self -> Inv self.
Proof.
  induction 1 as [ds|e self self' _ IH Hstep].
  - apply Inv_new_view.
  - by eapply step_Inv.
Qed.

End Reachability.

(** * Main results *)

(** ** Widget factory *)

(** C9: [_create_widget] is total; each of the six known tokens yields its
    widget bound to the view's data store, and every other token, such as
    "Frobnicate", yields a [Static] whose label is "Unknown widget: "
    followed by the token, so the label contains the token. *)
Theorem create_widget_degrades_gracefully (self : MainView) :
  _create_widget self "RawResponses" = RawResponses (data_store self) /\
  _create_widget self "Registers" = Registers (data_store self) /\
  _create_widget self "Stack" = Stack (data_store self) /\
  _create_widget self "Output" = Output (data_store self) /\
  _create_widget self "Disassembly" = Disassembly (data_store self) /\
  _create_widget self "Backtrace" = Backtrace (data_store self) /\
  _create_widget self "Frobnicate" = Static "Unknown widget: Frobnicate" /\
  forall widget_name,
    widget_name ∉ known_kinds ->
    exists label,
      _create_widget self widget_name = Static label /\
      label = "Unknown widget: " +:+ widget_name /\
      PyStr.contains label widget_name = true.
Proof.
  repeat (split; [reflexivity|]).
  intros widget_name Hn. unfold known_kinds in Hn.
  repeat (apply not_elem_of_cons in Hn as [? Hn]).
  exists ("Unknown widget: " +:+ widget_name). unfold _create_widget.
  rewrite !bool_decide_eq_false_2 by done.
  repeat split. apply PyStrFacts.contains_app.
Qed.

Lemma create_widget_degrades_gracefully_witness :
  exists label,
    _create_widget (new_view (DataStoreRef 1)) "Frobnicate" = Static label /\
    label = "Unknown widget: " +:+ "Frobnicate" /\
    PyStr.contains label "Frobnicate" = true.
Proof.
  apply (create_widget_degrades_gracefully (new_view (DataStoreRef 1))).
  unfold known_kinds. vm_compute. intros H.
  repeat (apply elem_of_cons in H as [H|H]; [discriminate H|]).
  by apply elem_of_nil in H.
Defined.

(** ** Tab lifecycle *)


Lemma parse_close_control r plus tab_id :
  dict_get regions r = Some plus ->
  match_region regions
    (PyStr.removeprefix ("delete_" +:+ r +:+ "_" +:+ tab_id) "delete_")
  = (Some r, Some tab_id).
Proof.
  intros Hr. rewrite PyStrFacts.removeprefix_app.
  rewrite <- PyStrFacts.app_assoc. by eapply match_region_own.
Qed.


Lemma on_key_fields event self self' event' :
  on_key event self = Ok (self', event') ->
  add_tab_map self' = add_tab_map self /\
  tab_counters self' = tab_counters self /\
  tabbed_contents self' = tabbed_contents self /\
  command_history self' = command_history self /\
  process self' = process self /\
  stdout self' = stdout self.
Proof.
  intros H. unfold on_key in H.
  destruct (negb (has_focus (command_input self))); [by simplify_eq|].
  case_bool_decide.
  - destruct (0 <? history_index self); simpl in H;
      destruct (_ && _); simpl in H;
      try destruct (getitem _ _); by simplify_eq/=.
  - case_bool_decide; [|by simplify_eq].
    destruct (history_index self <? len_history self); simpl in H;
      destruct (_ =? _); simpl in H;
      try destruct (getitem _ _); by simplify_eq/=.
Qed.

Lemma on_input_submitted_fields event self self' :
  on_input_submitted event self = Ok self' ->
  add_tab_map self' = add_tab_map self /\
  tab_counters self' = tab_counters self /\
  tabbed_contents self' = tabbed_contents self.
Proof.
  intros H. unfold on_input_submitted in H.
  case_bool_decide; [|by simplify_eq].
  destruct (PyStr.truthy _).
  - destruct (process_command _ self) as [s|] eqn:E; [|done].
    apply process_command_fields in E as (? & ? & ? & ? & _).
    simpl in H. by simplify_eq.
  - simpl in H. by simplify_eq.
Qed.

Lemma tab_id_of_truthy r k : PyStr.truthy (tab_id_of r k) = true.
Proof.
  unfold tab_id_of. destruct r; [|done].
  by rewrite PyStrFacts.app_nil.
Qed.

Section TabClaims.

Variable exposes_update_content : UnseenWidget -> bool.
Variable next_active : list TabPane -> string -> string.





Lemma run_reachable es self self' :
  reachable exposes_update_content next_active self ->
  run exposes_update_content next_active es self = Ok self' ->
  reachable exposes_update_content next_active self'.
Proof.
  revert self. induction es as [|e es IH]; intros self Hr H; simpl in H.
  - by simplify_eq.
  - destruct (step _ _ e self) as [s|] eqn:E; [|done]. simpl in H.
    eapply IH; [|exact H]. by eapply reachable_step.
Qed.


(** C4: when the parse of the close-control id finds no region, or finds a
    region with nothing after its prefix, or resolves to the sentinel pane
    of the region it finds, [delete_tab] returns the view it was given:
    tab sequences, counters and command history are all as before. *)
Theorem delete_tab_ignores_malformed (self : MainView) (delete_button_id : string) :
  let remainder := PyStr.removeprefix delete_button_id "delete_" in
  match_region (add_tab_map self) remainder = (None, None) \/
  (exists r, match_region (add_tab_map self) remainder = (Some r, Some "")) \/
  (exists r plus,
     match_region (add_tab_map self) remainder = (Some r, Some plus) /\
     dict_get (add_tab_map self) r = Some plus) ->
  delete_tab next_active delete_button_id self = Ok self.
Proof.
  intros remainder H. unfold delete_tab. fold remainder.
  destruct H as [->|[(r & ->)|(r & plus & -> & Hr)]]; simpl; try done.
  - by rewrite orb_true_r.
  - destruct (negb (PyStr.truthy r) || negb (PyStr.truthy plus)); [done|].
    unfold plus_tab_of. rewrite Hr. simpl. by rewrite bool_decide_eq_true_2.
Qed.

(** C5: for a region id that is none of the four keys of [add_tab_map],
    [add_tab] returns normally; it has printed the one line
    "No such tabbed content: <id>" and left every counter, every tabbed
    content and its active tab, the history, its cursor, the input and
    the process as they were. *)
Theorem add_tab_unknown_region (self : MainView) (r widget_name : string) :
  reachable exposes_update_content next_active self ->
  r ∉ ["main_tabs"; "small_tabs_1"; "small_tabs_2"; "medium_tabs"] ->
  exists self',
    add_tab r widget_name self = Ok self' /\
    tab_counters self' = tab_counters self /\
    tabbed_contents self' = tabbed_contents self /\
    add_tab_map self' = add_tab_map self /\
    command_history self' = command_history self /\
    history_index self' = history_index self /\
    command_input self' = command_input self /\
    process self' = process self /\
    data_store self' = data_store self /\
    stdout self' = stdout self ++ ["No such tabbed content: " +:+ r].
Proof.
  intros Hreach Hn. pose proof (reachable_Inv _ _ _ Hreach) as (Hmap & _).
  exists (print ("No such tabbed content: " +:+ r) self).
  split; [|done]. apply add_tab_unknown. rewrite Hmap.
  repeat (apply not_elem_of_cons in Hn as [? Hn]).
  unfold dict_mem, regions. simpl.
  by rewrite !bool_decide_eq_false_2 by done.
Qed.

End TabClaims.

(** ** Command history *)

Ltac split_comparisons :=
  repeat (match goal with
          | |- context [?a <? ?b] => destruct (Z.ltb_spec a b)
          | |- context [?a <=? ?b] => destruct (Z.leb_spec a b)
          | |- context [?a =? ?b] => destruct (Z.eqb_spec a b)
          end; simpl in *).

Lemma on_key_progress event self :
  Inv self -> exists self' event', on_key event self = Ok (self', event').
Proof.
  intros (_ & _ & Hidx). unfold on_key, len_history in *.
  destruct (negb (has_focus (command_input self))); [by eexists _, _|].
  case_bool_decide; [|case_bool_decide; [|by eexists _, _]];
    split_comparisons; try lia; try (by eexists _, _);
    match goal with
    | |- context [getitem ?l ?i] =>
        destruct (getitem_in_range l i) as (x & -> & _); [lia|]
    end; simpl; by eexists _, _.
Qed.

Section HistoryClaims.

Variable exposes_update_content : UnseenWidget -> bool.
Variable next_active : list TabPane -> string -> string.

(** C6: with history ["a"; "b"], the cursor one past the end and the
    command input focused, Up, Up, Down leaves "b" in the input; three
    times Up moves the cursor to 1, 0 and 0 again and leaves "a"; Down at
    the end of the history shows the empty string.  On any view in use a
    key press is handled without error, Up never takes the cursor below
    0, and whenever Down leaves the cursor at [len(history)] the input is
    empty. *)
Theorem history_navigation (self : MainView) :
  command_history self = ["a"; "b"] ->
  history_index self = 2 ->
  has_focus (command_input self) = true ->
  (exists s,
     run exposes_update_content next_active
       [KeyPressed "up"; KeyPressed "up"; KeyPressed "down"] self = Ok s /\
     value (command_input s) = "b" /\ history_index s = 1) /\
  (exists s1 s2 s3,
     step exposes_update_content next_active (KeyPressed "up") self = Ok s1 /\
     step exposes_update_content next_active (KeyPressed "up") s1 = Ok s2 /\
     step exposes_update_content next_active (KeyPressed "up") s2 = Ok s3 /\
     history_index s1 = 1 /\ history_index s2 = 0 /\ history_index s3 = 0 /\
     value (command_input s3) = "a") /\
  (exists s1 s2,
     run exposes_update_content next_active
       [KeyPressed "up"; KeyPressed "down"] self = Ok s1 /\
     history_index s1 = len_history s1 /\ value (command_input s1) = "" /\
     step exposes_update_content next_active (KeyPressed "down") self = Ok s2 /\
     history_index s2 = len_history s2 /\ value (command_input s2) = "") /\
  (forall v event,
     reachable exposes_update_content next_active v ->
     exists v' event',
       on_key event v = Ok (v', event') /\
       0 <= history_index v' <= len_history v' /\
       (has_focus (command_input v) = true -> key event = "down" ->
        history_index v' = len_history v' -> value (command_input v') = "")).
Proof.
  intros Hh Hi Hf. repeat split.
  - destruct self as [? ? h i ? ? ? [v f] ?]. simpl in Hh, Hi, Hf. subst.
    eexists. split; [reflexivity|]. split; reflexivity.
  - destruct self as [? ? h i ? ? ? [v f] ?]. simpl in Hh, Hi, Hf. subst.
    eexists _, _, _. repeat split; reflexivity.
  - destruct self as [? ? h i ? ? ? [v f] ?]. simpl in Hh, Hi, Hf. subst.
    eexists _, _. repeat split; reflexivity.
  - intros v event Hreach. pose proof (reachable_Inv _ _ _ Hreach) as HI.
    destruct (on_key_progress event v HI) as (v' & event' & Hk).
    exists v', event'. split; [done|].
    pose proof (on_key_Inv _ _ _ _ HI Hk) as (_ & _ & Hidx). split; [done|].
    intros Hfv Hd Hend. unfold on_key, len_history in *.
    rewrite Hfv, Hd in Hk. simpl in Hk.
    repeat (match type of Hk with
            | context [?a <? ?b] => destruct (Z.ltb_spec a b)
            | context [?a =? ?b] => destruct (Z.eqb_spec a b)
            end; simpl in Hk);
      try (by simplify_eq);
      destruct (getitem _ _); simplify_eq/=; lia.
Qed.

(** C7, as the code has it: a submission of the command input leaves the
    cursor at [len(command_history)], with the input cleared and the
    stripped command, when not empty, appended to the history; an edit of
    the command input is handled by no method of the view and leaves the
    cursor and the history as they were. *)
Theorem cursor_reset_on_submission (self : MainView) (event : Submitted) :
  is_Some (process self) ->
  input_id event = "command_input" ->
  (exists self',
     on_input_submitted event self = Ok self' /\
     history_index self' = len_history self' /\
     value (command_input self') = "" /\
     command_history self' =
       (if PyStr.truthy (PyStr.strip (submitted_value event))
        then command_history self ++ [PyStr.strip (submitted_value event)]
        else command_history self)) /\
  (forall new_value,
     exists self',
       step exposes_update_content next_active (InputChanged new_value) self
         = Ok self' /\
       value (command_input self') = new_value /\
       history_index self' = history_index self /\
       command_history self' = command_history self).
Proof.
  intros [p Hp] Hid. split.
  - unfold on_input_submitted. rewrite Hid. simpl.
    destruct (PyStr.truthy _).
    + unfold process_command. simpl. rewrite Hp. simpl. eexists.
      split; [done|]. by repeat split.
    + simpl. eexists. split; [done|]. by repeat split.
  - intros new_value. eexists. split; [done|]. by repeat split.
Qed.

(** C10: a submission of the command input whose value strips to the empty
    string leaves the history and the process as they were, so nothing was
    handed to the process; the input is cleared and the cursor is set to
    [len(command_history)]. *)
Theorem blank_submission (self : MainView) (event : Submitted) :
  input_id event = "command_input" ->
  PyStr.strip (submitted_value event) = "" ->
  exists self',
    on_input_submitted event self = Ok self' /\
    command_history self' = command_history self /\
    process self' = process self /\
    value (command_input self') = "" /\
    history_index self' = len_history self' /\
    tab_counters self' = tab_counters self /\
    tabbed_contents self' = tabbed_contents self.
Proof.
  intros Hid Hs. unfold on_input_submitted. rewrite Hid, Hs. simpl.
  eexists. split; [done|]. by repeat split.
Qed.

End HistoryClaims.

(** ** Broadcast update *)

Lemma non_sentinel_front r plus front :
  Forall (fun p => pane_id p <> plus) front ->
  non_sentinel plus (front ++ [plus_pane r plus]) = front.
Proof.
  intros H. unfold non_sentinel. rewrite List.filter_app. simpl.
  rewrite bool_decide_eq_true_2 by done. simpl. rewrite app_nil_r.
  induction H as [|p l Hp _ IH]; simpl; [done|].
  rewrite bool_decide_eq_false_2 by done. simpl. by rewrite IH.
Qed.

Lemma tab_id_of_region r r' plus plus' k k' :
  dict_get regions r = Some plus -> dict_get regions r' = Some plus' ->
  tab_id_of r k = tab_id_of r' k' -> r = r'.
Proof.
  intros Hr Hr' H.
  apply (f_equal (fun s => PyStr.startswith s (r' +:+ "_tab_"))) in H.
  unfold tab_id_of in H.
  rewrite <- (PyStrFacts.app_assoc r' "_tab_"), PyStrFacts.startswith_app in H.
  destruct (regions_cases _ _ Hr) as [E|[E|[E|E]]]; injection E as -> ->;
    destruct (regions_cases _ _ Hr') as [E|[E|[E|E]]]; injection E as -> ->;
    first [reflexivity | discriminate H].
Qed.

Lemma plus_not_any_tab r r' plus plus' k :
  dict_get regions r = Some plus -> dict_get regions r' = Some plus' ->
  plus <> tab_id_of r' k.
Proof.
  intros Hr Hr'. unfold tab_id_of.
  destruct (regions_cases _ _ Hr) as [E|[E|[E|E]]]; injection E as -> ->;
    destruct (regions_cases _ _ Hr') as [E|[E|[E|E]]]; injection E as -> ->;
    discriminate.
Qed.

Lemma regions_elem r plus :
  (r, plus) ∈ regions <-> dict_get regions r = Some plus.
Proof.
  split.
  - unfold regions. intros H.
    repeat (apply elem_of_cons in H as [H|H]; [by injection H as -> ->|]).
    by apply elem_of_nil in H.
  - intros H. destruct (regions_cases _ _ H) as [E|[E|[E|E]]];
      injection E as -> ->; unfold regions; set_solver.
Qed.

Lemma regions_keys_NoDup : NoDup (fst <$> regions).
Proof. unfold regions. simpl. repeat constructor; set_solver. Qed.

(** On a view that satisfies the invariant, the non-sentinel panes of any
    run of distinct known regions carry distinct ids, all of them tab ids. *)
Lemma targets_ids self items :
  Inv self -> NoDup (fst <$> items) ->
  (forall item, item ∈ items -> dict_get regions (fst item) = Some (snd item)) ->
  let targets :=
    flat_map (fun item => non_sentinel (snd item) (region_panes self (fst item)))
      items in
  NoDup (pane_id <$> targets) /\
  forall tab_id, tab_id ∈ pane_id <$> targets ->
    exists item k, item ∈ items /\ tab_id = tab_id_of (fst item) k.
Proof.
  intros (_ & Hreg & _). induction items as [|[r plus] items IH];
    intros Hnd Hitems; simpl.
  - split; [constructor|]. intros ? H. by apply elem_of_nil in H.
  - apply NoDup_cons in Hnd as [Hr Hnd].
    destruct IH as [IHnd IHform]; [done|intros; apply Hitems; set_solver|].
    assert (Hget : dict_get regions r = Some plus).
    { apply (Hitems (r, plus)). set_solver. }
    destruct (Hreg r plus Hget) as (c & tc & front & _ & _ & Htc & Hp & Hall & Hfnd).
    unfold region_panes at 1 3. simpl. rewrite Htc, Hp.
    rewrite non_sentinel_front.
    2:{ eapply Forall_impl; [exact Hall|]. intros p (k & _ & ->) E.
        symmetry in E. by eapply plus_not_tab_id. }
    assert (Hfront : forall tab_id, tab_id ∈ pane_id <$> front ->
              exists k, tab_id = tab_id_of r k).
    { intros tab_id Hin. apply list_elem_of_fmap in Hin as (p & -> & Hin).
      rewrite Forall_forall in Hall. destruct (Hall p Hin) as (k & _ & ->). eauto. }
    split.
    + rewrite fmap_app. apply NoDup_app. repeat split; try done.
      intros tab_id Hin1 Hin2.
      destruct (Hfront _ Hin1) as (k & ->).
      destruct (IHform _ Hin2) as ([r' plus'] & k' & Hin' & E). simpl in E.
      assert (r = r').
      { eapply tab_id_of_region; [exact Hget| |exact E].
        apply (Hitems (r', plus')). set_solver. }
      subst r'. apply Hr. apply list_elem_of_fmap. by exists (r, plus').
    + intros tab_id Hin. rewrite fmap_app, elem_of_app in Hin.
      destruct Hin as [Hin|Hin].
      * destruct (Hfront _ Hin) as (k & ->). exists (r, plus), k.
        split; [set_solver|done].
      * destruct (IHform _ Hin) as (item & k & ? & ?). exists item, k.
        split; [set_solver|done].
Qed.

Section BroadcastClaims.

Variable exposes_update_content : UnseenWidget -> bool.
Variable next_active : list TabPane -> string -> string.

Lemma update_children_spec children calls :
  update_children exposes_update_content children calls
  = calls ++ List.filter (has_update_content exposes_update_content) children.
Proof.
  revert calls. induction children as [|w ws IH]; intros calls; simpl.
  - by rewrite app_nil_r.
  - rewrite IH. destruct (has_update_content _ w); [|done].
    by rewrite <- app_assoc.
Qed.

Lemma update_panes_spec plus ps calls :
  update_panes exposes_update_content plus ps calls
  = calls ++ flat_map (updates_of exposes_update_content) (non_sentinel plus ps).
Proof.
  revert calls. induction ps as [|p ps IH]; intros calls; simpl.
  - by rewrite app_nil_r.
  - case_bool_decide; simpl; [apply IH|].
    rewrite IH, update_children_spec. by rewrite <- app_assoc.
Qed.

Lemma update_regions_spec self items calls :
  (forall item, item ∈ items -> is_Some (tabbed_contents self !! fst item)) ->
  update_regions exposes_update_content self items calls
  = Ok (calls ++
        flat_map (updates_of exposes_update_content)
          (flat_map (fun item =>
             non_sentinel (snd item) (region_panes self (fst item))) items)).
Proof.
  revert calls. induction items as [|[r plus] items IH]; intros calls Hall; simpl.
  - by rewrite app_nil_r.
  - destruct (Hall (r, plus)) as [tc Htc]; [set_solver|]. simpl in Htc.
    unfold query_one_tabbed, region_panes at 1. rewrite Htc. simpl.
    rewrite IH by (intros; apply Hall; set_solver).
    rewrite update_panes_spec, flat_map_app. by rewrite <- app_assoc.
Qed.

(** C8: on a view in use [update_all_widgets] returns normally.  The
    widgets whose [update_content()] it calls are, region by region in
    the order of [add_tab_map], pane by pane in tab order, child by child
    in DOM order, the children that define [update_content]; the panes it
    goes through are exactly the panes of the four regions other than
    their sentinels, each once; no widget without [update_content] is
    called; and [check_coreminer_output] with a response does exactly
    this. *)
Theorem broadcast_update (self : MainView) :
  reachable exposes_update_content next_active self ->
  exists calls,
    update_all_widgets exposes_update_content self = Ok calls /\
    calls = flat_map (updates_of exposes_update_content) (broadcast_targets self) /\
    (forall pane,
       pane ∈ broadcast_targets self <->
       exists r plus tc,
         dict_get (add_tab_map self) r = Some plus /\
         tabbed_contents self !! r = Some tc /\
         pane ∈ panes tc /\ pane_id pane <> plus) /\
    NoDup (pane_id <$> broadcast_targets self) /\
    (forall r plus,
       dict_get (add_tab_map self) r = Some plus ->
       plus ∉ pane_id <$> broadcast_targets self) /\
    Forall (fun w => has_update_content exposes_update_content w = true) calls /\
    (is_Some (process self) ->
     check_coreminer_output exposes_update_content true self = Ok calls /\
     check_coreminer_output exposes_update_content false self = Ok []).
Proof.
  intros Hreach. pose proof (reachable_Inv _ _ _ Hreach) as HI.
  pose proof HI as (Hmap & Hreg & _).
  assert (Hrun : update_all_widgets exposes_update_content self
                 = Ok (flat_map (updates_of exposes_update_content) (broadcast_targets self))).
  { unfold update_all_widgets, broadcast_targets.
    rewrite update_regions_spec; [done|].
    intros [r plus] Hin. rewrite Hmap in Hin. apply regions_elem in Hin.
    destruct (Hreg r plus Hin) as (c & tc & front & _ & _ & Htc & _). by exists tc. }
  destruct (targets_ids self regions HI regions_keys_NoDup) as [Hnd Hform].
  { intros [r plus] Hin. by apply regions_elem. }
  exists (flat_map (updates_of exposes_update_content) (broadcast_targets self)).
  unfold broadcast_targets in *. rewrite Hmap in *.
  repeat split; try done.
  - intros Hin. apply list_elem_of_In, in_flat_map in Hin as ([r plus] & Hitem & Hin).
    simpl in Hin. apply filter_In in Hin as [Hin Hne].
    apply list_elem_of_In, regions_elem in Hitem.
    destruct (Hreg r plus Hitem) as (c & tc & front & _ & _ & Htc & _).
    unfold region_panes in Hin. rewrite Htc in Hin.
    exists r, plus, tc. repeat split; try done.
    + by apply list_elem_of_In.
    + intros E. by rewrite bool_decide_eq_true_2 in Hne.
  - intros (r & plus & tc & Hr & Htc & Hin & Hne).
    apply list_elem_of_In, in_flat_map. exists (r, plus). split.
    + by apply list_elem_of_In, regions_elem.
    + simpl. apply filter_In. unfold region_panes. rewrite Htc. split.
      * by apply list_elem_of_In.
      * by rewrite bool_decide_eq_false_2.
  - intros r plus Hr Hin.
    destruct (Hform _ Hin) as ([r' plus'] & k & Hitem & E).
    apply regions_elem in Hitem. simpl in E.
    exact (plus_not_any_tab r r' plus plus' k Hr Hitem E).
  - apply Forall_forall. intros w Hin.
    apply list_elem_of_In, in_flat_map in Hin as (p & _ & Hin).
    by apply filter_In in Hin as [_ ?].
  - unfold check_coreminer_output. destruct H as [p ->]. exact Hrun.
  - unfold check_coreminer_output. by destruct H as [p ->].
Qed.

End BroadcastClaims.

(** * Examples *)




Lemma delete_tab_ignores_malformed_witness :
  delete_tab activate_first "delete_main_tabs_add_main" fresh_view = Ok fresh_view /\
  delete_tab activate_first "delete_nowhere_tab_1" fresh_view = Ok fresh_view /\
  delete_tab activate_first "delete_main_tabs_" fresh_view = Ok fresh_view.
Proof.
  split; [|split]; apply delete_tab_ignores_malformed.
  - right. right. exists "main_tabs", "add_main". split; reflexivity.
  - left. reflexivity.
  - right. left. exists "main_tabs". reflexivity.
Defined.

Lemma add_tab_unknown_region_witness :
  exists self',
    add_tab "nope" "Registers" fresh_view = Ok self' /\
    tab_counters self' = tab_counters fresh_view /\
    tabbed_contents self' = tabbed_contents fresh_view /\
    stdout self' = ["No such tabbed content: nope"].
Proof.
  assert (Hn : "nope" ∉ ["main_tabs"; "small_tabs_1"; "small_tabs_2"; "medium_tabs"]).
  { intros H. repeat (apply elem_of_cons in H as [H|H]; [discriminate H|]).
    by apply elem_of_nil in H. }
  destruct (add_tab_unknown_region every_widget_updates activate_first
              fresh_view "nope" "Registers" (reachable_new _ _ _) Hn)
    as (self' & H1 & H2 & H3 & _ & _ & _ & _ & _ & _ & H4).
  exists self'. repeat split; assumption.
Defined.

Lemma history_navigation_witness :
  exists s,
    run every_widget_updates activate_first
      [KeyPressed "up"; KeyPressed "up"; KeyPressed "down"] view_ab = Ok s /\
    value (command_input s) = "b" /\ history_index s = 1.
Proof.
  exact (proj1 (history_navigation every_widget_updates activate_first view_ab
                  eq_refl eq_refl eq_refl)).
Defined.

Lemma cursor_reset_on_submission_witness :
  exists self',
    on_input_submitted (mkSubmitted "command_input" " break main ")
      (on_mount fresh_view) = Ok self' /\
    history_index self' = len_history self' /\
    value (command_input self') = "" /\
    command_history self' = ["break main"].
Proof.
  exact (proj1 (cursor_reset_on_submission every_widget_updates activate_first
                  (on_mount fresh_view)
                  (mkSubmitted "command_input" " break main ")
                  (ex_intro _ _ eq_refl) eq_refl)).
Defined.

Lemma blank_submission_witness :
  exists self',
    on_input_submitted (mkSubmitted "command_input" "   ") view_ab = Ok self' /\
    command_history self' = command_history view_ab /\
    process self' = process view_ab /\
    value (command_input self') = "" /\
    history_index self' = len_history self' /\
    tab_counters self' = tab_counters view_ab /\
    tabbed_contents self' = tabbed_contents view_ab.
Proof.
  apply (blank_submission view_ab (mkSubmitted "command_input" "   "));
    reflexivity.
Defined.

Lemma broadcast_update_witness :
  exists self calls,
    run every_widget_updates activate_first tab_session fresh_view = Ok self /\
    update_all_widgets every_widget_updates self = Ok calls /\
    calls = [Output (DataStoreRef 1); Stack (DataStoreRef 1)].
Proof.
  destruct (run every_widget_updates activate_first tab_session fresh_view)
    as [self|e] eqn:Hrun; [|vm_compute in Hrun; discriminate Hrun].
  assert (Hreach : reachable every_widget_updates activate_first self).
  { eapply run_reachable; [apply reachable_new|exact Hrun]. }
  destruct (broadcast_update every_widget_updates activate_first self Hreach)
    as (calls & H1 & H2 & _).
  exists self, calls. split; [reflexivity|]. split; [exact H1|].
  rewrite H2. vm_compute in Hrun. injection Hrun as <-. reflexivity.
Defined.

(** C7 with "after each edit" does not hold: after "a" and "b" were
    submitted and Up recalled "b", typing into the command input leaves the
    cursor at 1 while the history has 2 entries. *)
Lemma cursor_after_edit_counterexample :
  exists self',
    run every_widget_updates activate_first recall_then_edit fresh_view = Ok self' /\
    value (command_input self') = "bx" /\
    history_index self' = 1 /\ len_history self' = 2 /\
    history_index self' <> len_history self'.
Proof.
  eexists. split; [vm_compute; reflexivity|].
  vm_compute. repeat split; discriminate.
Qed.

(** * Further properties *)

(** ** More on strings *)




Lemma lstrip_starts_nonspace s : starts_nonspace (PyStr.lstrip s).
Proof.
  induction s as [|c s IH]; simpl; [done|].
  destruct (PyStr.isspace c) eqn:E; [done|]. simpl. exact E.
Qed.

Lemma lstrip_of_nonspace s : starts_nonspace s -> PyStr.lstrip s = s.
Proof. destruct s as [|c s]; simpl; [done|]. by intros ->. Qed.

Lemma rstrip_starts_nonspace s :
  starts_nonspace s -> starts_nonspace (PyStr.rstrip s).
Proof.
  destruct s as [|c s]; simpl; [done|]. intros E.
  destruct (PyStr.rstrip s); by rewrite ?E.
Qed.

Lemma rstrip_idem s : PyStr.rstrip (PyStr.rstrip s) = PyStr.rstrip s.
Proof.
  induction s as [|c s IH]; simpl; [done|].
  destruct (PyStr.rstrip s) as [|d r] eqn:E.
  - destruct (PyStr.isspace c) eqn:Ec; simpl; [done|]. by rewrite Ec.
  - simpl in IH |- *. by rewrite IH.
Qed.

Lemma strip_idem s : PyStr.strip (PyStr.strip s) = PyStr.strip s.
Proof.
  unfold PyStr.strip.
  rewrite (lstrip_of_nonspace (PyStr.rstrip (PyStr.lstrip s))).
  - apply rstrip_idem.
  - apply rstrip_starts_nonspace, lstrip_starts_nonspace.
Qed.

(** ** What the tab operations leave alone *)

Lemma add_tab_others r widget_name self self' :
  add_tab r widget_name self = Ok self' ->
  add_tab_map self' = add_tab_map self /\
  command_history self' = command_history self /\
  history_index self' = history_index self /\
  command_input self' = command_input self /\
  process self' = process self /\
  data_store self' = data_store self.
Proof.
  intros H. unfold add_tab in H.
  destruct (negb _); [by simplify_eq|].
  destruct (query_one_tabbed self r) as [tc|]; [|done]. simpl in H.
  destruct (counter_of self r) as [c|]; [|done]. simpl in H.
  unfold counter_of in H. simpl in H. rewrite lookup_insert_eq in H. simpl in H.
  destruct (plus_tab_of _ r) as [plus|]; [|done]. simpl in H.
  destruct (add_pane _ _ _) as [tc'|]; [|done]. simpl in H.
  by simplify_eq.
Qed.

Lemma delete_tab_others next_active delete_button_id self self' :
  delete_tab next_active delete_button_id self = Ok self' ->
  add_tab_map self' = add_tab_map self /\
  tab_counters self' = tab_counters self /\
  command_history self' = command_history self /\
  history_index self' = history_index self /\
  command_input self' = command_input self /\
  process self' = process self /\
  data_store self' = data_store self /\
  stdout self' = stdout self.
Proof.
  intros H. unfold delete_tab in H.
  destruct (match_region _ _) as [[r|] [t|]]; simpl in H;
    try (destruct (_ || _); [by simplify_eq|]); try by simplify_eq.
  destruct (plus_tab_of self r) as [plus|]; [|done]. simpl in H.
  case_bool_decide; [by simplify_eq|].
  destruct (query_one_tabbed self r) as [tc|]; [|done]. simpl in H.
  by simplify_eq.
Qed.

Lemma on_key_others event self self' event' :
  on_key event self = Ok (self', event') ->
  data_store self' = data_store self /\
  has_focus (command_input self') = has_focus (command_input self).
Proof.
  intros H. unfold on_key in H.
  destruct (negb (has_focus (command_input self))); [by simplify_eq|].
  case_bool_decide.
  - destruct (0 <? history_index self); simpl in H;
      destruct (_ && _); simpl in H;
      try destruct (getitem _ _); by simplify_eq/=.
  - case_bool_decide; [|by simplify_eq].
    destruct (history_index self <? len_history self); simpl in H;
      destruct (_ =? _); simpl in H;
      try destruct (getitem _ _); by simplify_eq/=.
Qed.

Lemma on_input_submitted_others event self self' :
  on_input_submitted event self = Ok self' ->
  data_store self' = data_store self /\
  has_focus (command_input self') = has_focus (command_input self).
Proof.
  intros H. unfold on_input_submitted in H.
  case_bool_decide; [|by simplify_eq].
  destruct (PyStr.truthy _).
  - unfold process_command in H. simpl in H.
    destruct (process self); simpl in H; by simplify_eq.
  - simpl in H. by simplify_eq.
Qed.

Section Frames.

Variable exposes_update_content : UnseenWidget -> bool.
Variable next_active : list TabPane -> string -> string.

(** No event changes the region table or the data store. *)
Lemma step_constants e self self' :
  step exposes_update_content next_active e self = Ok self' ->
  add_tab_map self' = add_tab_map self /\ data_store self' = data_store self.
Proof.
  intros H. destruct e; cbn [step] in H.
  - by simplify_eq.
  - destruct (on_key _ self) as [[s k']|] eqn:E; [|done]. simpl in H.
    simplify_eq. pose proof (on_key_others _ _ _ _ E) as (? & _).
    by pose proof (on_key_fields _ _ _ _ E) as (? & _).
  - pose proof (on_input_submitted_others _ _ _ H) as (? & _).
    by pose proof (on_input_submitted_fields _ _ _ H) as (? & _).
  - by simplify_eq.
  - by simplify_eq.
  - destruct choice as [w|]; cbn [_on_widget_choice] in H; [|by simplify_eq].
    by pose proof (add_tab_others _ _ _ _ H) as (? & _ & _ & _ & _ & ?).
  - by pose proof (add_tab_others _ _ _ _ H) as (? & _ & _ & _ & _ & ?).
  - by pose proof (delete_tab_others _ _ _ _ H) as (? & _ & _ & _ & _ & _ & ? & _).
  - destruct (check_coreminer_output _ _ _); simpl in H; by simplify_eq.
Qed.

End Frames.

(** ** The history and the process *)

(** What a submission does to the history and to the process. *)
Lemma on_input_submitted_history event self self' :
  on_input_submitted event self = Ok self' ->
  (command_history self' = command_history self /\ process self' = process self) \/
  exists p,
    let command := PyStr.strip (submitted_value event) in
    input_id event = "command_input" /\
    PyStr.truthy command = true /\
    process self = Some p /\
    command_history self' = command_history self ++ [command] /\
    process self' = Some (mkProcess (store p) (parsed_commands p ++ [command])).
Proof.
  intros H. unfold on_input_submitted in H.
  case_bool_decide as Hid; [|left; by simplify_eq].
  destruct (PyStr.truthy _) eqn:Ht.
  - destruct (process_command _ self) as [s|] eqn:E; [|done].
    apply process_command_fields in E as (? & _ & _ & _ & _ & p & ? & ?).
    simpl in H. simplify_eq. right. by exists p.
  - simpl in H. simplify_eq. by left.
Qed.

Section History.

Variable exposes_update_content : UnseenWidget -> bool.
Variable next_active : list TabPane -> string -> string.

Lemma step_history e self self' :
  step exposes_update_content next_active e self = Ok self' ->
  (command_history self' = command_history self /\
   (process self' = process self \/
    process self' = Some (mkProcess (data_store self) []))) \/
  exists p command,
    PyStr.truthy command = true /\ PyStr.strip command = command /\
    process self = Some p /\
    command_history self' = command_history self ++ [command] /\
    process self' = Some (mkProcess (store p) (parsed_commands p ++ [command])).
Proof.
  intros H. destruct e; cbn [step] in H.
  - simplify_eq. left. split; [done|by right].
  - destruct (on_key _ self) as [[s k']|] eqn:E; [|done]. simpl in H.
    simplify_eq. apply on_key_fields in E as (_ & _ & _ & ? & ? & _).
    left. split; [done|by left].
  - apply on_input_submitted_history in H
      as [[? ?]|(p & _ & Ht & Hp & Hh & Hp')].
    + left. split; [done|by left].
    + right. exists p, (PyStr.strip (submitted_value e)).
      repeat split; try done. apply strip_idem.
  - simplify_eq. left. split; [done|by left].
  - simplify_eq. left. split; [done|by left].
  - destruct choice as [w|]; cbn [_on_widget_choice] in H.
    + apply add_tab_others in H as (_ & ? & _ & _ & ? & _).
      left. split; [done|by left].
    + simplify_eq. left. split; [done|by left].
  - apply add_tab_others in H as (_ & ? & _ & _ & ? & _).
    left. split; [done|by left].
  - apply delete_tab_others in H as (_ & _ & ? & _ & _ & ? & _).
    left. split; [done|by left].
  - destruct (check_coreminer_output _ _ _); simpl in H; simplify_eq.
    left. split; [done|by left].
Qed.

Lemma step_History_ok e self self' :
  History_ok self ->
  step exposes_update_content next_active e self = Ok self' ->
  History_ok self'.
Proof.
  intros [Hall Hp] H.
  pose proof (step_constants _ _ _ _ _ H) as (_ & Hds).
  destruct (step_history _ _ _ H)
    as [[Hh [Hsame|Hnew]]|(p & c & Ht & Hs & Hpo & Hh & Hpn)];
    unfold History_ok; rewrite Hh, Hds.
  - by rewrite Hsame.
  - rewrite Hnew. split; [done|]. simpl. split; [done|]. apply suffix_nil.
  - rewrite Hpn. rewrite Hpo in Hp. destruct Hp as [Hst Hsuf]. split.
    + apply Forall_app. split; [done|]. by apply Forall_singleton.
    + simpl. split; [done|]. by apply suffix_app.
Qed.

Lemma reachable_History_ok self :
  reachable exposes_update_content next_active self -> History_ok self.
Proof.
  induction 1 as [ds|e self self' _ IH Hstep].
  - split; [constructor|done].
  - by eapply step_History_ok.
Qed.

End History.

(** ** The shape of the tabs *)

Lemma Forall_sublist {A} (P : A -> Prop) (l1 l2 : list A) :
  l1 `sublist_of` l2 -> Forall P l2 -> Forall P l1.
Proof.
  intros Hs Hall. apply Forall_forall. intros x Hx.
  rewrite Forall_forall in Hall. apply Hall. by eapply sublist_subseteq.
Qed.

Lemma StronglySorted_sublist {A} (R : relation A) (l1 l2 : list A) :
  l1 `sublist_of` l2 -> StronglySorted R l2 -> StronglySorted R l1.
Proof.
  induction 1 as [|x l1 l2 Hs IH|x l1 l2 Hs IH]; intros Hsorted.
  - constructor.
  - apply StronglySorted_inv in Hsorted as [Hl2 Hx].
    constructor; [by apply IH|by eapply Forall_sublist].
  - apply StronglySorted_inv in Hsorted as [Hl2 _]. by apply IH.
Qed.

Lemma StronglySorted_snoc (ks : list Z) (k : Z) :
  StronglySorted Z.lt ks -> Forall (fun j => j < k) ks ->
  StronglySorted Z.lt (ks ++ [k]).
Proof.
  induction 1 as [|j ks Hks IH Hj]; intros Hall; simpl.
  - repeat constructor.
  - apply Forall_cons in Hall as [Hjk Hall]. constructor; [by apply IH|].
    apply Forall_app. split; [done|]. by apply Forall_singleton.
Qed.

Lemma tab_pane_of_store self self' r widget_name k :
  data_store self' = data_store self ->
  tab_pane_of self' r widget_name k = tab_pane_of self r widget_name k.
Proof. intros H. unfold tab_pane_of, _create_widget. by rewrite H. Qed.

Lemma pane_of_entry_store self self' r (entries : list (Z * string)) :
  data_store self' = data_store self ->
  pane_of_entry self' r <$> entries = pane_of_entry self r <$> entries.
Proof.
  intros H. apply list_fmap_ext. intros _ e _. by apply tab_pane_of_store.
Qed.

Lemma remove_first_entries self r t (entries : list (Z * string)) :
  exists entries',
    remove_first t (pane_of_entry self r <$> entries)
      = pane_of_entry self r <$> entries' /\
    entries' `sublist_of` entries.
Proof.
  induction entries as [|e entries (entries' & IH & Hs)].
  - by exists [].
  - rewrite fmap_cons. cbn [remove_first]. case_bool_decide.
    + exists entries. split; [done|]. by apply sublist_cons.
    + exists (e :: entries'). rewrite fmap_cons, IH. split; [done|].
      by apply sublist_skip.
Qed.

(** A view that differs only outside the tabs has the same shape. *)
Lemma Shaped_frame self self' :
  Shaped self ->
  tab_counters self' = tab_counters self ->
  tabbed_contents self' = tabbed_contents self ->
  data_store self' = data_store self ->
  Shaped self'.
Proof.
  intros HS E1 E2 E3 r plus Hr.
  destruct (HS r plus Hr) as (c & tc & entries & ? & ? & ? & ? & ?).
  exists c, tc, entries. rewrite E1, E2, (pane_of_entry_store self) by done.
  done.
Qed.

Lemma Shaped_new_view ds : Shaped (new_view ds).
Proof.
  intros r plus H. exists 0, (plus_region r plus), [].
  destruct (regions_cases _ _ H) as [E|[E|[E|E]]]; injection E as -> ->;
    repeat split; try done; constructor.
Qed.

Lemma Shaped_added self r plus widget_name c tc front :
  Shaped self -> dict_get regions r = Some plus ->
  tab_counters self !! r = Some c -> 0 <= c ->
  tabbed_contents self !! r = Some tc ->
  panes tc = front ++ [plus_pane r plus] ->
  Shaped (added self r widget_name c front plus).
Proof.
  intros HS Hr Hc Hc0 Htc Hp r' plus' Hr'.
  set (self' := added self r widget_name c front plus).
  assert (Hds : data_store self' = data_store self) by done.
  destruct (decide (r = r')) as [<-|Hne].
  - assert (plus' = plus) as -> by congruence.
    destruct (HS r plus Hr) as (c' & tc' & entries & Hc' & Htc' & Hp' & Hsort & Hall).
    assert (c' = c) as -> by congruence.
    assert (tc' = tc) as -> by congruence.
    rewrite Hp in Hp'. apply app_inv_tail in Hp' as Hfront.
    exists (c + 1),
      (mkTabbedContent
         (front ++ [tab_pane_of self r widget_name (c + 1); plus_pane r plus])
         (tab_id_of r (c + 1))),
      (entries ++ [(c + 1, widget_name)]).
    unfold self', added. simpl. rewrite !lookup_insert_eq.
    repeat split.
    + rewrite fmap_app, Hfront, <- app_assoc. reflexivity.
    + rewrite fmap_app. simpl. apply StronglySorted_snoc; [done|].
      apply Forall_fmap. eapply Forall_impl; [exact Hall|].
      intros [k w] He. simpl in He |- *. lia.
    + apply Forall_app. split.
      * eapply Forall_impl; [exact Hall|]. intros [k w] He. simpl in He |- *. lia.
      * apply Forall_singleton. simpl. lia.
  - destruct (HS r' plus' Hr') as (c' & tc' & entries & ? & ? & ? & ? & ?).
    exists c', tc', entries. unfold self', added. simpl.
    rewrite !lookup_insert_ne by done.
    rewrite (pane_of_entry_store self) by done. done.
Qed.

Lemma Shaped_deleted next_active self r plus t tc :
  Shaped self -> dict_get regions r = Some plus -> t <> plus ->
  tabbed_contents self !! r = Some tc ->
  Shaped (deleted next_active self r t tc).
Proof.
  intros HS Hr Ht Htc r' plus' Hr'.
  set (self' := deleted next_active self r t tc).
  assert (Hds : data_store self' = data_store self) by done.
  destruct (decide (r = r')) as [<-|Hne].
  - assert (plus' = plus) as -> by congruence.
    destruct (HS r plus Hr) as (c & tc' & entries & Hc & Htc' & Hp & Hsort & Hall).
    assert (tc' = tc) as -> by congruence.
    unfold self', deleted, remove_pane. simpl. case_bool_decide as Hin.
    + destruct (remove_first_entries self r t entries) as (entries' & Hrem & Hsub).
      exists c, (mkTabbedContent (remove_first t (panes tc))
          (if bool_decide (active tc = t) then next_active (panes tc) t
           else active tc)), entries'.
      simpl. rewrite lookup_insert_eq. simpl. split_and!; [done|done|..].
      * rewrite Hp, remove_first_last by (simpl; congruence).
        by rewrite Hrem.
      * eapply StronglySorted_sublist; [|exact Hsort]. by apply fmap_sublist.
      * by eapply Forall_sublist.
    + exists c, tc, entries. simpl. rewrite lookup_insert_eq.
      rewrite (pane_of_entry_store self) by done. done.
  - destruct (HS r' plus' Hr') as (c' & tc' & entries & ? & ? & ? & ? & ?).
    exists c', tc', entries. unfold self', deleted. simpl.
    rewrite lookup_insert_ne by done.
    rewrite (pane_of_entry_store self) by done. done.
Qed.

Section Shape.

Variable exposes_update_content : UnseenWidget -> bool.
Variable next_active : list TabPane -> string -> string.

Lemma add_tab_Shaped self r widget_name self' :
  Inv self -> Shaped self -> add_tab r widget_name self = Ok self' -> Shaped self'.
Proof.
  intros HI HS H. destruct (dict_get regions r) as [plus|] eqn:Hr.
  - destruct (add_tab_known self r plus widget_name HI Hr)
      as (c & tc & front & ? & ? & ? & ? & _ & _ & E).
    rewrite E in H. injection H as <-. by eapply Shaped_added.
  - rewrite add_tab_unknown in H.
    + injection H as <-. by eapply Shaped_frame.
    + destruct HI as (-> & _). unfold dict_mem. by rewrite Hr.
Qed.

Lemma step_Shaped e self self' :
  Inv self -> Shaped self ->
  step exposes_update_content next_active e self = Ok self' -> Shaped self'.
Proof.
  intros HI HS H. pose proof (step_constants _ _ _ _ _ H) as (_ & Hds).
  destruct e; cbn [step] in H.
  - simplify_eq. by eapply Shaped_frame.
  - destruct (on_key _ self) as [[s k']|] eqn:E; [|done]. simpl in H.
    simplify_eq. apply on_key_fields in E as (_ & ? & ? & _).
    by eapply Shaped_frame.
  - apply on_input_submitted_fields in H as (_ & ? & ?).
    by eapply Shaped_frame.
  - simplify_eq. by eapply Shaped_frame.
  - simplify_eq. by eapply Shaped_frame.
  - destruct choice as [w|]; cbn [_on_widget_choice] in H;
      [by eapply add_tab_Shaped|by simplify_eq].
  - by eapply add_tab_Shaped.
  - destruct (delete_tab_cases next_active self delete_button_id HI)
      as [E|(r & plus & t & tc & ? & ? & ? & _ & E)]; rewrite E in H;
      injection H as <-; [done|by eapply Shaped_deleted].
  - destruct (check_coreminer_output _ _ _); simpl in H; by simplify_eq.
Qed.

Lemma reachable_Shaped self :
  reachable exposes_update_content next_active self -> Shaped self.
Proof.
  induction 1 as [ds|e self self' Hreach IH Hstep].
  - apply Shaped_new_view.
  - eapply step_Shaped; [|exact IH|exact Hstep]. by eapply reachable_Inv.
Qed.

End Shape.

(** ** Buttons and tabs *)


Lemma remove_first_filter t (l : list TabPane) :
  NoDup (pane_id <$> l) ->
  remove_first t l
  = List.filter (fun q => negb (bool_decide (pane_id q = t))) l.
Proof.
  induction l as [|p l IH]; [done|].
  rewrite fmap_cons. intros [Hp Hnd]%NoDup_cons. cbn [remove_first List.filter].
  case_bool_decide as E; simpl.
  - subst t. clear IH. induction l as [|q l IH]; [done|].
    rewrite fmap_cons in Hp, Hnd. apply not_elem_of_cons in Hp as [Hne Hp].
    apply NoDup_cons in Hnd as [_ Hnd]. simpl.
    rewrite bool_decide_eq_false_2 by done. simpl. by rewrite <- IH.
  - by rewrite IH.
Qed.

(** The two descriptions of a known region of a view in use, put together. *)
Lemma region_facts self r plus :
  Inv self -> Shaped self -> dict_get regions r = Some plus ->
  exists c tc entries,
    tab_counters self !! r = Some c /\ 0 <= c /\
    tabbed_contents self !! r = Some tc /\
    panes tc = (pane_of_entry self r <$> entries) ++ [plus_pane r plus] /\
    StronglySorted Z.lt (fst <$> entries) /\
    Forall (fun e => 1 <= fst e <= c) entries /\
    NoDup (pane_id <$> panes tc) /\
    (plus ∉ pane_id <$> (pane_of_entry self r <$> entries)).
Proof.
  intros (_ & Hreg & _) HS Hr.
  destruct (Hreg r plus Hr) as (c & tc & front & Hc & Hc0 & Htc & Hp & Hall & Hnd).
  destruct (HS r plus Hr) as (c' & tc' & entries & Hc' & Htc' & Hp' & Hsort & Hbound).
  assert (c' = c) as -> by congruence.
  assert (tc' = tc) as -> by congruence.
  assert (Hfront : front = pane_of_entry self r <$> entries).
  { rewrite Hp in Hp'. by apply app_inv_tail in Hp'. }
  assert (Hplus : plus ∉ pane_id <$> front).
  { intros Hin. apply list_elem_of_fmap in Hin as (p & Hid & Hin).
    rewrite Forall_forall in Hall. destruct (Hall p Hin) as (k & _ & Hpk).
    rewrite Hpk in Hid. by eapply plus_not_tab_id. }
  exists c, tc, entries. split_and!; try done.
  - rewrite Hp, fmap_app. apply NoDup_app. split_and!; [done| |].
    + intros x Hx Hx'. simpl in Hx'. apply list_elem_of_singleton in Hx' as ->.
      by apply Hplus.
    + simpl. apply NoDup_singleton.
  - by rewrite <- Hfront.
Qed.

Section ButtonProperties.

Variable exposes_update_content : UnseenWidget -> bool.
Variable next_active : list TabPane -> string -> string.


(** X2: on a view in use every tab of a known region is built as [add_tab]
    builds it, around the widget [_create_widget] gives for its title, and
    pressing its "Close Tab" button removes exactly that pane: the other
    panes of the region stay in their order, the other regions and all
    counters are untouched. *)
Theorem close_button_closes_its_tab (self : MainView) (r plus : string)
  (tc : TabbedContent) (pane : TabPane) :
  reachable exposes_update_content next_active self ->
  dict_get (add_tab_map self) r = Some plus ->
  tabbed_contents self !! r = Some tc ->
  pane ∈ panes tc ->
  pane_id pane <> plus ->
  exists close_id self' tc',
    pane_children pane =
      [ScrollableContainer
         [VerticalScroll [_create_widget self (pane_title pane)];
          Button "Close Tab" close_id]] /\
    on_button_pressed next_active close_id self = Ok (self', None) /\
    tabbed_contents self' !! r = Some tc' /\
    panes tc' =
      List.filter (fun q => negb (bool_decide (pane_id q = pane_id pane)))
        (panes tc) /\
    (forall r', r' <> r ->
       tabbed_contents self' !! r' = tabbed_contents self !! r') /\
    tab_counters self' = tab_counters self.
Proof.
  intros Hreach Hr Htc Hin Hne.
  pose proof (reachable_Inv _ _ _ Hreach) as HI.
  pose proof (reachable_Shaped _ _ _ Hreach) as HS.
  pose proof HI as (Hmap & _). rewrite Hmap in Hr.
  destruct (region_facts self r plus HI HS Hr)
    as (c & tc0 & entries & _ & _ & Htc0 & Hp & _ & _ & Hnd & _).
  assert (tc0 = tc) as -> by congruence.
  rewrite Hp, elem_of_app, list_elem_of_singleton in Hin.
  destruct Hin as [Hin| ->]; [|done].
  apply list_elem_of_fmap in Hin as ([k w] & -> & Hkw).
  set (t := tab_id_of r k).
  set (close_id := "delete_" +:+ r +:+ "_" +:+ t).
  assert (Hdel : delete_tab next_active close_id self
                 = Ok (deleted next_active self r t tc)).
  { eapply delete_tab_removes; try done.
    - by eapply parse_close_control.
    - apply tab_id_of_truthy. }
  exists close_id, (deleted next_active self r t tc), (remove_pane next_active t tc).
  split_and!; try done.
  - unfold on_button_pressed.
    change (PyStr.startswith close_id "add_") with false. cbv iota.
    unfold close_id at 1. rewrite PyStrFacts.startswith_app.
    fold close_id. by rewrite Hdel.
  - unfold deleted. simpl. by rewrite lookup_insert_eq.
  - unfold remove_pane. rewrite bool_decide_eq_true_2.
    + simpl. by apply remove_first_filter.
    + unfold pane_ids. rewrite Hp, fmap_app, elem_of_app. left.
      apply list_elem_of_fmap. exists (pane_of_entry self r (k, w)).
      split; [done|]. apply list_elem_of_fmap. by exists (k, w).
  - intros r' Hr'. unfold deleted. simpl. by rewrite lookup_insert_ne.
Qed.

End ButtonProperties.


Lemma walk_create_widget self widget_name :
  walk (_create_widget self widget_name) = [_create_widget self widget_name].
Proof. unfold _create_widget. by repeat case_bool_decide. Qed.

Lemma flat_map_singletons {A B} (P : B -> bool) (h : A -> B) (l : list A) :
  flat_map (fun x => List.filter P [h x]) l = List.filter P (h <$> l).
Proof.
  induction l as [|x l IH]; simpl in *; [done|]. rewrite IH. by destruct (P (h x)).
Qed.

Lemma flat_map_Forall_ext {A B} (f g : A -> list B) (l : list A) :
  Forall (fun x => f x = g x) l -> flat_map f l = flat_map g l.
Proof. induction 1 as [|x l Hx _ IH]; simpl; [done|]. by rewrite Hx, IH. Qed.

(** Every pane the broadcast goes through is a tab as [add_tab] builds it. *)
Lemma targets_are_tabs self :
  Inv self -> Shaped self ->
  Forall (fun p => exists r e, p = pane_of_entry self r e) (broadcast_targets self).
Proof.
  intros HI HS. apply Forall_forall. intros p Hin.
  pose proof HI as (Hmap & _). unfold broadcast_targets in Hin. rewrite Hmap in Hin.
  apply list_elem_of_In, in_flat_map in Hin as ([r plus] & Hitem & Hin).
  simpl in Hin. apply filter_In in Hin as [Hin Hne].
  apply list_elem_of_In, regions_elem in Hitem.
  destruct (region_facts self r plus HI HS Hitem)
    as (c & tc & entries & _ & _ & Htc & Hp & _).
  unfold region_panes in Hin. rewrite Htc, Hp in Hin.
  apply list_elem_of_In in Hin. rewrite elem_of_app, list_elem_of_singleton in Hin.
  destruct Hin as [Hin| ->].
  - apply list_elem_of_fmap in Hin as (e & -> & _). by exists r, e.
  - simpl in Hne. by rewrite bool_decide_eq_true_2 in Hne.
Qed.

Section TabProperties.

Variable exposes_update_content : UnseenWidget -> bool.
Variable next_active : list TabPane -> string -> string.

(** X3: whatever events a fresh view goes through, deletions included as
    long as the close-control ids they carry are made of letters, digits
    and underscores, every known region still ends with its sentinel pane,
    which occurs nowhere else in the region, and the region table is the
    same. *)
Theorem sentinel_never_deleted (ds : DataStore) (self' : MainView)
  (es : list Event) (r plus : string) :
  Forall plain_deletion es ->
  run exposes_update_content next_active es (new_view ds) = Ok self' ->
  dict_get (add_tab_map (new_view ds)) r = Some plus ->
  exists tc front,
    add_tab_map self' = add_tab_map (new_view ds) /\
    tabbed_contents self' !! r = Some tc /\
    panes tc = front ++ [plus_pane r plus] /\
    (plus ∉ pane_id <$> front).
Proof.
  intros _ Hrun Hr. set (self := new_view ds) in *.
  assert (Hreach : reachable exposes_update_content next_active self)
    by apply reachable_new.
  pose proof (reachable_Inv _ _ _ Hreach) as (Hmap & _).
  pose proof (run_reachable _ _ _ _ _ Hreach Hrun) as Hreach'.
  pose proof (reachable_Inv _ _ _ Hreach') as HI'.
  pose proof (reachable_Shaped _ _ _ Hreach') as HS'.
  pose proof HI' as (Hmap' & _). rewrite Hmap in Hr.
  destruct (region_facts self' r plus HI' HS' Hr)
    as (c & tc & entries & _ & _ & Htc & Hp & _ & _ & _ & Hplus).
  exists tc, (pane_of_entry self' r <$> entries). split_and!; try done.
  all: by rewrite Hmap, Hmap'.
Qed.




(** X7: on a view in use [update_all_widgets] calls [update_content()] on
    the widget hosted by a tab, the one [_create_widget] gives for the tab's
    title and so bound to the view's data store, for each tab whose widget
    defines the method, in the order of the tabs; it never calls it on a
    container or on a button. *)
Theorem broadcast_calls_hosted_widgets (self : MainView) :
  reachable exposes_update_content next_active self ->
  update_all_widgets exposes_update_content self
  = Ok (List.filter (has_update_content exposes_update_content)
          ((fun pane => _create_widget self (pane_title pane))
             <$> broadcast_targets self)).
Proof.
  intros Hreach.
  pose proof (reachable_Inv _ _ _ Hreach) as HI.
  pose proof (reachable_Shaped _ _ _ Hreach) as HS.
  pose proof HI as (Hmap & Hreg & _).
  unfold update_all_widgets.
  rewrite update_regions_spec.
  - fold (broadcast_targets self). simpl. f_equal.
    rewrite <- flat_map_singletons. apply flat_map_Forall_ext.
    eapply Forall_impl; [by apply targets_are_tabs|].
    intros p (r' & [k w] & ->). unfold updates_of, query_all. simpl.
    by rewrite walk_create_widget.
  - intros [r plus] Hin. rewrite Hmap in Hin. apply regions_elem in Hin.
    destruct (Hreg r plus Hin) as (c & tc & front & _ & _ & Htc & _). by exists tc.
Qed.

End TabProperties.

(** ** Recall with Up and Down *)

(** One press of Up on a focused command input whose cursor is in range. *)
Lemma on_key_up_spec event self :
  0 <= history_index self <= len_history self ->
  has_focus (command_input self) = true ->
  key event = "up" ->
  exists self',
    on_key event self = Ok (self', stop event) /\
    history_index self' = Z.max 0 (history_index self - 1) /\
    command_history self' = command_history self /\
    has_focus (command_input self') = true /\
    (0 < len_history self ->
     command_history self !! Z.to_nat (history_index self')
       = Some (value (command_input self'))).
Proof.
  intros Hidx Hf Hk. unfold on_key, len_history in *. rewrite Hf, Hk. simpl.
  split_comparisons; try lia;
    try (eexists; split; [reflexivity|]; simpl; split_and!; try done; lia);
    match goal with
    | |- context [getitem ?l ?i] =>
        destruct (getitem_in_range l i) as (x & -> & Hx); [lia|]
    end; simpl; eexists; (split; [reflexivity|]); simpl;
    split_and!; try done; try lia; intros _;
    (rewrite Z.max_r by lia); done.
Qed.

(** One press of Down on a focused command input whose cursor is in range. *)
Lemma on_key_down_spec event self :
  0 <= history_index self <= len_history self ->
  has_focus (command_input self) = true ->
  key event = "down" ->
  exists self',
    on_key event self = Ok (self', stop event) /\
    history_index self' = Z.min (len_history self) (history_index self + 1) /\
    command_history self' = command_history self /\
    has_focus (command_input self') = true /\
    (history_index self' = len_history self -> value (command_input self') = "") /\
    (history_index self' < len_history self ->
     command_history self !! Z.to_nat (history_index self')
       = Some (value (command_input self'))).
Proof.
  intros Hidx Hf Hk. unfold on_key, len_history in *. rewrite Hf, Hk. simpl.
  split_comparisons; try lia;
    try (eexists; split; [reflexivity|]; simpl; split_and!; try done; lia);
    match goal with
    | |- context [getitem ?l ?i] =>
        destruct (getitem_in_range l i) as (x & -> & Hx); [lia|]
    end; simpl; eexists; (split; [reflexivity|]); simpl;
    split_and!; try done; try lia; intros _;
    (rewrite Z.min_r by lia); done.
Qed.

Section HistoryProperties.

Variable exposes_update_content : UnseenWidget -> bool.
Variable next_active : list TabPane -> string -> string.

Lemma step_up self :
  0 <= history_index self <= len_history self ->
  has_focus (command_input self) = true ->
  exists self',
    step exposes_update_content next_active (KeyPressed "up") self = Ok self' /\
    history_index self' = Z.max 0 (history_index self - 1) /\
    command_history self' = command_history self /\
    has_focus (command_input self') = true /\
    (0 < len_history self ->
     command_history self !! Z.to_nat (history_index self')
       = Some (value (command_input self'))).
Proof.
  intros Hidx Hf.
  destruct (on_key_up_spec (mkKey "up" false) self Hidx Hf eq_refl)
    as (self' & E & ?).
  exists self'. cbn [step]. rewrite E. done.
Qed.

Lemma step_down self :
  0 <= history_index self <= len_history self ->
  has_focus (command_input self) = true ->
  exists self',
    step exposes_update_content next_active (KeyPressed "down") self = Ok self' /\
    history_index self' = Z.min (len_history self) (history_index self + 1) /\
    command_history self' = command_history self /\
    has_focus (command_input self') = true /\
    (history_index self' = len_history self -> value (command_input self') = "") /\
    (history_index self' < len_history self ->
     command_history self !! Z.to_nat (history_index self')
       = Some (value (command_input self'))).
Proof.
  intros Hidx Hf.
  destruct (on_key_down_spec (mkKey "down" false) self Hidx Hf eq_refl)
    as (self' & E & ?).
  exists self'. cbn [step]. rewrite E. done.
Qed.

Lemma ups_spec n self :
  0 <= history_index self <= len_history self ->
  has_focus (command_input self) = true ->
  exists self',
    run exposes_update_content next_active (presses n "up") self = Ok self' /\
    history_index self' = Z.max 0 (history_index self - Z.of_nat n) /\
    command_history self' = command_history self /\
    ((0 < n)%nat -> 0 < len_history self ->
     command_history self !! Z.to_nat (history_index self')
       = Some (value (command_input self'))).
Proof.
  revert self. induction n as [|n IH]; intros self Hidx Hf.
  - exists self. simpl. split_and!; [done|lia|done|lia].
  - destruct (step_up self Hidx Hf) as (s1 & E1 & Hi1 & Hh1 & Hf1 & Hd1).
    assert (Hidx1 : 0 <= history_index s1 <= len_history s1).
    { unfold len_history in *. rewrite Hh1. lia. }
    destruct (IH s1 Hidx1 Hf1) as (s2 & E2 & Hi2 & Hh2 & Hd2).
    exists s2. unfold presses in *. rewrite replicate_S. cbn [run].
    rewrite E1. simpl. split_and!; [done|lia|congruence|].
    intros _ Hlen. destruct n as [|n].
    + simpl in E2. injection E2 as <-. by apply Hd1.
    + rewrite <- Hh1. apply Hd2; [lia|]. unfold len_history in *. by rewrite Hh1.
Qed.

Lemma downs_spec n self :
  0 <= history_index self <= len_history self ->
  has_focus (command_input self) = true ->
  exists self',
    run exposes_update_content next_active (presses n "down") self = Ok self' /\
    history_index self'
      = Z.min (len_history self) (history_index self + Z.of_nat n) /\
    command_history self' = command_history self /\
    ((0 < n)%nat ->
     (history_index self' = len_history self -> value (command_input self') = "") /\
     (history_index self' < len_history self ->
      command_history self !! Z.to_nat (history_index self')
        = Some (value (command_input self')))).
Proof.
  revert self. induction n as [|n IH]; intros self Hidx Hf.
  - exists self. simpl. split_and!; [done|lia|done|lia].
  - destruct (step_down self Hidx Hf) as (s1 & E1 & Hi1 & Hh1 & Hf1 & Hd1).
    assert (Hlen1 : len_history s1 = len_history self).
    { unfold len_history. by rewrite Hh1. }
    assert (Hidx1 : 0 <= history_index s1 <= len_history s1) by lia.
    destruct (IH s1 Hidx1 Hf1) as (s2 & E2 & Hi2 & Hh2 & Hd2).
    exists s2. unfold presses in *. rewrite replicate_S. cbn [run].
    rewrite E1. simpl. split_and!; [done|lia|congruence|].
    intros _. destruct n as [|n].
    + simpl in E2. injection E2 as <-. exact Hd1.
    + rewrite <- Hh1, <- Hlen1. apply Hd2. lia.
Qed.

(** X8: the command history only grows at its end: after any sequence of
    events the history the view started with is a prefix of its history. *)
Theorem history_append_only (self self' : MainView) (es : list Event) :
  run exposes_update_content next_active es self = Ok self' ->
  command_history self `prefix_of` command_history self'.
Proof.
  revert self. induction es as [|e es IH]; intros self H; simpl in H.
  - by simplify_eq.
  - destruct (step _ _ e self) as [s|] eqn:E; [|done]. simpl in H.
    etrans; [|by apply IH].
    destruct (step_history _ _ _ _ _ E) as [[-> _]|(p & c & _ & _ & _ & -> & _)];
      [done|by apply prefix_app_r].
Qed.

(** X9: on a view in use every recorded command is non-empty and has no
    white space at either end. *)
Theorem history_entries_stripped (self : MainView) :
  reachable exposes_update_content next_active self ->
  Forall (fun h => h <> "" /\ PyStr.strip h = h) (command_history self).
Proof.
  intros Hreach. destruct (reachable_History_ok _ _ _ Hreach) as [Hall _].
  eapply Forall_impl; [exact Hall|]. intros h [Ht Hs]. split; [|done].
  by intros ->.
Qed.

(** X10: on a view in use the process, once started, is bound to the data
    store of the view, the one every widget is created on, and the commands
    it was handed are the last entries of the history, in the same order. *)
Theorem process_follows_history (self : MainView) (p : CoreMinerProcess) :
  reachable exposes_update_content next_active self ->
  process self = Some p ->
  store p = data_store self /\
  parsed_commands p `suffix_of` command_history self.
Proof.
  intros Hreach Hp. destruct (reachable_History_ok _ _ _ Hreach) as [_ H].
  by rewrite Hp in H.
Qed.

(** X11: once the process is started, a submission of the command input
    whose value does not strip to the empty string hands the stripped text
    to the process and records that same text as the last history entry. *)
Theorem submission_sends_stripped_command (self : MainView) (event : Submitted)
  (p : CoreMinerProcess) :
  process self = Some p ->
  input_id event = "command_input" ->
  PyStr.strip (submitted_value event) <> "" ->
  exists self' p',
    on_input_submitted event self = Ok self' /\
    process self' = Some p' /\
    store p' = store p /\
    parsed_commands p' = parsed_commands p ++ [PyStr.strip (submitted_value event)] /\
    command_history self'
      = command_history self ++ [PyStr.strip (submitted_value event)] /\
    last (parsed_commands p') = last (command_history self').
Proof.
  intros Hp Hid Hne. unfold on_input_submitted. rewrite Hid. simpl.
  destruct (PyStr.strip (submitted_value event)) as [|c s] eqn:E; [done|].
  simpl. unfold process_command. simpl. rewrite Hp. simpl.
  eexists _, _. split_and!; try done. simpl. by rewrite !last_snoc.
Qed.

(** X12: on a view in use with the command input focused, Up followed by
    Down brings the cursor back when an earlier entry exists, and Down
    followed by Up brings it back when a later position exists; in both
    cases the input then shows the entry under the cursor, or nothing when
    the cursor is past the end. *)
Theorem up_down_round_trip (self : MainView) :
  reachable exposes_update_content next_active self ->
  has_focus (command_input self) = true ->
  (0 < history_index self ->
   exists self',
     run exposes_update_content next_active
       [KeyPressed "up"; KeyPressed "down"] self = Ok self' /\
     history_index self' = history_index self /\
     (history_index self = len_history self -> value (command_input self') = "") /\
     (history_index self < len_history self ->
      command_history self !! Z.to_nat (history_index self)
        = Some (value (command_input self')))) /\
  (history_index self < len_history self ->
   exists self',
     run exposes_update_content next_active
       [KeyPressed "down"; KeyPressed "up"] self = Ok self' /\
     history_index self' = history_index self /\
     command_history self !! Z.to_nat (history_index self)
       = Some (value (command_input self'))).
Proof.
  intros Hreach Hf. pose proof (reachable_Inv _ _ _ Hreach) as (_ & _ & Hidx).
  split; intros Hi.
  - destruct (step_up self Hidx Hf) as (s1 & E1 & Hi1 & Hh1 & Hf1 & _).
    assert (Hlen1 : len_history s1 = len_history self).
    { unfold len_history. by rewrite Hh1. }
    destruct (step_down s1 ltac:(lia) Hf1) as (s2 & E2 & Hi2 & Hh2 & _ & He & Hd).
    exists s2. cbn [run]. rewrite E1. cbn [bind]. rewrite E2. cbn [bind].
    assert (history_index s2 = history_index self) as Hback by lia.
    rewrite Hback, Hlen1, Hh1 in *. done.
  - destruct (step_down self Hidx Hf) as (s1 & E1 & Hi1 & Hh1 & Hf1 & _).
    assert (Hlen1 : len_history s1 = len_history self).
    { unfold len_history. by rewrite Hh1. }
    destruct (step_up s1 ltac:(lia) Hf1) as (s2 & E2 & Hi2 & Hh2 & _ & Hd).
    exists s2. cbn [run]. rewrite E1. cbn [bind]. rewrite E2. cbn [bind].
    assert (history_index s2 = history_index self) as Hback by lia.
    rewrite Hback, Hlen1, Hh1 in *. split_and!; [done|done|]. apply Hd. lia.
Qed.

(** X13: on a view in use with the command input focused, [n] presses of Up
    move the cursor [n] places back but not below 0, and leave the history
    as it is; after at least one press on a non-empty history the input
    shows the entry under the cursor. *)
Theorem repeated_up_stops_at_oldest (self : MainView) (n : nat) :
  reachable exposes_update_content next_active self ->
  has_focus (command_input self) = true ->
  exists self',
    run exposes_update_content next_active (presses n "up") self = Ok self' /\
    history_index self' = Z.max 0 (history_index self - Z.of_nat n) /\
    command_history self' = command_history self /\
    ((0 < n)%nat -> command_history self <> [] ->
     command_history self !! Z.to_nat (history_index self')
       = Some (value (command_input self'))).
Proof.
  intros Hreach Hf. pose proof (reachable_Inv _ _ _ Hreach) as (_ & _ & Hidx).
  destruct (ups_spec n self Hidx Hf) as (self' & ? & ? & ? & Hd).
  exists self'. split_and!; try done. intros Hn Hne. apply Hd; [done|].
  unfold len_history. destruct (command_history self); [done|]. simpl. lia.
Qed.

(** X14: on a view in use with the command input focused, [n] presses of
    Down move the cursor [n] places forward but not beyond the length of
    the history; after at least one press the input is empty when the
    cursor has reached the end and shows the entry under the cursor
    otherwise. *)
Theorem repeated_down_stops_at_end (self : MainView) (n : nat) :
  reachable exposes_update_content next_active self ->
  has_focus (command_input self) = true ->
  exists self',
    run exposes_update_content next_active (presses n "down") self = Ok self' /\
    history_index self'
      = Z.min (len_history self) (history_index self + Z.of_nat n) /\
    command_history self' = command_history self /\
    ((0 < n)%nat ->
     (history_index self' = len_history self -> value (command_input self') = "") /\
     (history_index self' < len_history self ->
      command_history self !! Z.to_nat (history_index self')
        = Some (value (command_input self')))).
Proof.
  intros Hreach Hf. pose proof (reachable_Inv _ _ _ Hreach) as (_ & _ & Hidx).
  by apply downs_spec.
Qed.

End HistoryProperties.

(** ** Examples for the further properties *)

Lemma session_run :
  run every_widget_updates activate_first tab_session fresh_view = Ok session_view.
Proof. vm_compute. reflexivity. Qed.

Lemma session_reachable :
  reachable every_widget_updates activate_first session_view.
Proof.
  eapply run_reachable; [apply (reachable_new _ _ (DataStoreRef 1))|].
  exact session_run.
Qed.

Lemma history_run :
  run every_widget_updates activate_first history_session fresh_view
  = Ok history_view.
Proof. vm_compute. reflexivity. Qed.

Lemma history_reachable :
  reachable every_widget_updates activate_first history_view.
Proof.
  eapply run_reachable; [apply (reachable_new _ _ (DataStoreRef 1))|].
  exact history_run.
Qed.


Lemma close_button_closes_its_tab_witness :
  exists self',
    on_button_pressed activate_first "delete_main_tabs_main_tabs_tab_2"
      session_view = Ok (self', None) /\
    tab_counters self' = tab_counters session_view.
Proof.
  eassert (Htc : tabbed_contents session_view !! "main_tabs" = Some _)
    by (vm_compute; reflexivity).
  match type of Htc with
  | _ = Some ?tc =>
      destruct (close_button_closes_its_tab every_widget_updates activate_first
                  session_view "main_tabs" "add_main" tc
                  (tab_pane_of session_view "main_tabs" "Frobnicate" 2)
                  session_reachable ltac:(vm_compute; reflexivity) Htc
                  ltac:(vm_compute; apply list_elem_of_here)
                  ltac:(vm_compute; discriminate))
        as (close_id & self' & tc' & H1 & H2 & _ & _ & _ & H3)
  end.
  exists self'. split; [|exact H3].
  vm_compute in H1. injection H1 as <-. exact H2.
Defined.

Lemma tab_session_plain : Forall plain_deletion tab_session.
Proof. unfold tab_session. repeat constructor. Qed.

Lemma sentinel_never_deleted_witness :
  exists tc front,
    tabbed_contents session_view !! "main_tabs" = Some tc /\
    panes tc = front ++ [plus_pane "main_tabs" "add_main"].
Proof.
  destruct (sentinel_never_deleted every_widget_updates activate_first
              (DataStoreRef 1) session_view tab_session "main_tabs" "add_main"
              tab_session_plain session_run eq_refl)
    as (tc & front & _ & H1 & H2 & _).
  exists tc, front. split; [exact H1|exact H2].
Defined.




Lemma broadcast_calls_hosted_widgets_witness :
  update_all_widgets every_widget_updates session_view
  = Ok (List.filter (has_update_content every_widget_updates)
          ((fun pane => _create_widget session_view (pane_title pane))
             <$> broadcast_targets session_view)).
Proof.
  exact (broadcast_calls_hosted_widgets every_widget_updates activate_first
           session_view session_reachable).
Defined.

Lemma history_append_only_witness :
  command_history fresh_view `prefix_of` command_history history_view.
Proof.
  exact (history_append_only every_widget_updates activate_first
           fresh_view history_view history_session history_run).
Defined.

Lemma history_entries_stripped_witness :
  Forall (fun h => h <> "" /\ PyStr.strip h = h) (command_history history_view).
Proof.
  exact (history_entries_stripped every_widget_updates activate_first
           history_view history_reachable).
Defined.

Lemma process_follows_history_witness :
  exists p,
    process history_view = Some p /\
    store p = data_store history_view /\
    parsed_commands p `suffix_of` command_history history_view.
Proof.
  eassert (Hp : process history_view = Some _) by (vm_compute; reflexivity).
  match type of Hp with
  | _ = Some ?p =>
      exists p; split; [exact Hp|];
      exact (process_follows_history every_widget_updates activate_first
               history_view p history_reachable Hp)
  end.
Defined.

Lemma submission_sends_stripped_command_witness :
  exists self' p',
    on_input_submitted (mkSubmitted "command_input" " run ")
      (on_mount fresh_view) = Ok self' /\
    process self' = Some p' /\
    parsed_commands p' = ["run"] /\
    command_history self' = ["run"].
Proof.
  destruct (submission_sends_stripped_command (on_mount fresh_view)
              (mkSubmitted "command_input" " run ")
              (mkProcess (DataStoreRef 1) []) eq_refl eq_refl
              ltac:(vm_compute; discriminate))
    as (self' & p' & H1 & H2 & _ & H3 & H4 & _).
  exists self', p'. split; [exact H1|]. split; [exact H2|].
  split; [exact H3|exact H4].
Defined.

Lemma up_down_round_trip_witness :
  exists self',
    run every_widget_updates activate_first
      [KeyPressed "up"; KeyPressed "down"] history_view = Ok self' /\
    history_index self' = history_index history_view.
Proof.
  destruct (proj1 (up_down_round_trip every_widget_updates activate_first
                     history_view history_reachable
                     ltac:(vm_compute; reflexivity))
              ltac:(vm_compute; reflexivity))
    as (self' & H1 & H2 & _).
  exists self'. split; [exact H1|exact H2].
Defined.

Lemma repeated_up_stops_at_oldest_witness :
  exists self',
    run every_widget_updates activate_first (presses 5 "up") history_view
      = Ok self' /\
    history_index self' = Z.max 0 (history_index history_view - 5).
Proof.
  destruct (repeated_up_stops_at_oldest every_widget_updates activate_first
              history_view 5 history_reachable ltac:(vm_compute; reflexivity))
    as (self' & H1 & H2 & _).
  exists self'. split; [exact H1|exact H2].
Defined.

Lemma repeated_down_stops_at_end_witness :
  exists self',
    run every_widget_updates activate_first (presses 5 "down") history_view
      = Ok self' /\
    history_index self'
      = Z.min (len_history history_view) (history_index history_view + 5).
Proof.
  destruct (repeated_down_stops_at_end every_widget_updates activate_first
              history_view 5 history_reachable ltac:(vm_compute; reflexivity))
    as (self' & H1 & H2 & _).
  exists self'. split; [exact H1|exact H2].
Defined.
